(** * Rabi plan progress report: a shallow embedding of
      [rabi_plan_processor.py] and the properties of its derivation
      pipeline (row projection, progress calculation, serialisation).

    The Python values the script manipulates are modelled by their run-time
    class; exceptions by an error monad; text by lists of Unicode code
    points; floats by the IEEE 754 binary64 model of the standard library
    ([SpecFloat], precision 53, maximal exponent 1024). *)

From Stdlib Require Import ZArith NArith List String Ascii Bool Lia.
From Stdlib Require Import Floats.SpecFloat.
Import ListNotations.
Open Scope Z_scope.

(** ** Exceptions and the error monad *)

Inductive exn : Type :=
| KeyError (key : string)
| ZeroDivisionError
| ValueError
| TypeError
| OutOfBoundsDatetime.

Inductive result (A : Type) : Type :=
| Ok (a : A)
| Raise (e : exn).
Arguments Ok {A} a.
Arguments Raise {A} e.

Definition bind {A B : Type} (r : result A) (k : A -> result B) : result B :=
  match r with
  | Ok a => k a
  | Raise e => Raise e
  end.

Notation "x <- r ;; k" := (bind r (fun x => k))
  (at level 61, r at next level, right associativity).

(** [try: body / except: handler] with a bare [except] clause. *)
Definition try_except {A : Type} (body : result A) (handler : A) : A :=
  match body with
  | Ok a => a
  | Raise _ => handler
  end.

(** ** Python text: sequences of code points *)

Definition pystr : Type := list N.

(** An ASCII literal as Python text. *)
Definition u (s : string) : pystr :=
  List.map N_of_ascii (list_ascii_of_string s).

(** [ch.isspace()]: the code points Python's [str.strip()] removes. *)
Definition isspace (c : N) : bool :=
  ((9 <=? c) && (c <=? 13) || (28 <=? c) && (c <=? 32)
   || (c =? 133) || (c =? 160) || (c =? 5760)
   || (8192 <=? c) && (c <=? 8202)
   || (c =? 8232) || (c =? 8233) || (c =? 8239) || (c =? 8287)
   || (c =? 12288))%N.

Fixpoint lstrip (s : pystr) : pystr :=
  match s with
  | [] => []
  | c :: rest => if isspace c then lstrip rest else s
  end.

Definition rstrip (s : pystr) : pystr := rev (lstrip (rev s)).

(** [s.strip()] *)
Definition strip (s : pystr) : pystr := rstrip (lstrip s).

(** [s.replace(',', '')] *)
Definition replace_comma (s : pystr) : pystr :=
  filter (fun c => negb (c =? 44)%N) s.

Definition pystr_eqb (a b : pystr) : bool :=
  if list_eq_dec N.eq_dec a b then true else false.

(** Decimal digits. *)
Definition digit (d : Z) : N := Z.to_N (48 + d).

Fixpoint uint_digits (d : Decimal.uint) : pystr :=
  match d with
  | Decimal.Nil => []
  | Decimal.D0 r => 48%N :: uint_digits r
  | Decimal.D1 r => 49%N :: uint_digits r
  | Decimal.D2 r => 50%N :: uint_digits r
  | Decimal.D3 r => 51%N :: uint_digits r
  | Decimal.D4 r => 52%N :: uint_digits r
  | Decimal.D5 r => 53%N :: uint_digits r
  | Decimal.D6 r => 54%N :: uint_digits r
  | Decimal.D7 r => 55%N :: uint_digits r
  | Decimal.D8 r => 56%N :: uint_digits r
  | Decimal.D9 r => 57%N :: uint_digits r
  end.

(** [str(n)] for a non-negative integer. *)
Definition str_nonneg (z : Z) : pystr := uint_digits (N.to_uint (Z.to_N z)).

(** [str(z)] for an integer. *)
Definition str_int (z : Z) : pystr :=
  if z <? 0 then 45%N :: str_nonneg (- z) else str_nonneg z.

(** Zero-padded fields of [strftime]: ["%02d"], ["%04d"] and friends. *)
Fixpoint pad (width : nat) (z : Z) : pystr :=
  match width with
  | O => []
  | S w => pad w (z / 10) ++ [digit (z mod 10)]
  end.

(** ** Python floats: IEEE 754 binary64 *)

Definition float : Type := spec_float.

Definition prec : Z := 53.
Definition emax : Z := 1024.

Definition fdiv : float -> float -> float := SFdiv prec emax.
Definition fmul : float -> float -> float := SFmul prec emax.
Definition fsub : float -> float -> float := SFsub prec emax.

Definition fzero : float := S754_zero false.

(** [float(z)]: the integer rounded to the nearest double. *)
Definition float_of_int (z : Z) : float := binary_normalize prec emax z 0 false.

(** The integer [z] as an exact, unrounded operand. *)
Definition exact_int (z : Z) : float :=
  match z with
  | Z0 => S754_zero false
  | Zpos p => S754_finite false p 0
  | Zneg p => S754_finite true p 0
  end.

(** [x / y] on two Python ints, [y <> 0]: the exact quotient, rounded once. *)
Definition int_truediv (x y : Z) : float := fdiv (exact_int x) (exact_int y).

(** [round_half_even(n / d)] for [n >= 0], [d > 0]. *)
Definition div_half_even (n d : Z) : Z :=
  let q := n / d in
  let r := n mod d in
  if 2 * r <? d then q
  else if d <? 2 * r then q + 1
  else if Z.even q then q else q + 1.

(** The magnitude of a finite float in tenths, rounded half to even on the
    exact binary value: what [round(x, 1)] and ["%.1f"] both start from. *)
Definition tenths (m : positive) (e : Z) : Z :=
  if 0 <=? e then 10 * Zpos m * 2 ^ e
  else div_half_even (10 * Zpos m) (2 ^ (- e)).

(** [round(x, 1)] on a float: the nearest multiple of one tenth, stored as
    the nearest double. *)
Definition round1_float (f : float) : float :=
  match f with
  | S754_finite s m e =>
      if 0 <=? e then f
      else
        match tenths m e with
        | Zpos n => fdiv (S754_finite s n 0) (exact_int 10)
        | _ => S754_zero s
        end
  | _ => f
  end.

(** [f"{x:.1f}"] on a float. *)
Definition format_1f_float (f : float) : pystr :=
  let sign (s : bool) : pystr := if s then u "-" else [] in
  match f with
  | S754_zero s => sign s ++ u "0.0"
  | S754_infinity s => sign s ++ u "inf"
  | S754_nan => u "nan"
  | S754_finite s m e =>
      let n := tenths m e in
      sign s ++ str_nonneg (n / 10) ++ u "." ++ [digit (n mod 10)]
  end.

(** [repr(x)] of a float: the shortest decimal string that reads back as
    [x], the nearest to [x] among the shortest, in fixed notation when the
    decimal point falls within [(-4, 16]] and in exponent notation
    otherwise. *)

(** The exact value of a positive finite float as a fraction. *)
Definition fraction_of (m : positive) (e : Z) : Z * Z :=
  if 0 <=? e then (Zpos m * 2 ^ e, 1) else (Zpos m, 2 ^ (- e)).

Definition ndigits (z : Z) : Z := Z.of_nat (List.length (str_nonneg z)).

(** The decimal point position [t]: [10^(t-1) <= n/d < 10^t]. *)
Definition decimal_point (n d : Z) : Z :=
  let t := ndigits n - ndigits d in
  let below (t : Z) : bool :=
    (* n/d < 10^t *)
    if 0 <=? t then n <? d * 10 ^ t else n * 10 ^ (- t) <? d in
  if below t then t else if below (t + 1) then t + 1 else t + 2.

(** The candidate [c * 10^(-s)] read back as a double. *)
Definition read_back (c s : Z) : float :=
  if 0 <=? s then int_truediv c (10 ^ s) else float_of_int (c * 10 ^ (- s)).

Definition float_same (a b : float) : bool :=
  match a, b with
  | S754_finite sa ma ea, S754_finite sb mb eb =>
      Bool.eqb sa sb && (Zpos ma =? Zpos mb) && (ea =? eb)
  | _, _ => false
  end.

(** The shortest digits of [n/d] with at most [p + fuel] significant
    digits, starting the search at [p]: the digits as an integer, and the
    scale [s] with value [digits * 10^(-s)]. *)
Fixpoint shortest (fuel : nat) (p : Z) (x : float) (n d t : Z) : Z * Z :=
  let s := p - t in
  let '(yn, yd) := if 0 <=? s then (n * 10 ^ s, d) else (n, d * 10 ^ (- s)) in
  let lo := yn / yd in
  let r := yn mod yd in
  let hi := lo + 1 in
  let ok_lo := (0 <? lo) && float_same (read_back lo s) x in
  let ok_hi := float_same (read_back hi s) x in
  let nearest :=
    if 2 * r <? yd then lo
    else if yd <? 2 * r then hi
    else if Z.even lo then lo else hi in
  match fuel with
  | O => (nearest, s)
  | S fuel' =>
      if ok_lo && ok_hi then (nearest, s)
      else if ok_lo then (lo, s)
      else if ok_hi then (hi, s)
      else shortest fuel' (p + 1) x n d t
  end.

Fixpoint zeros (k : nat) : pystr :=
  match k with
  | O => []
  | S k' => 48%N :: zeros k'
  end.

(** Digits and decimal point position laid out as Python prints them. *)
Definition layout (digits : pystr) (decpt : Z) : pystr :=
  let p := Z.of_nat (List.length digits) in
  if (-4 <? decpt) && (decpt <=? 16) then
    if decpt <=? 0 then u "0." ++ zeros (Z.to_nat (- decpt)) ++ digits
    else if p <=? decpt then digits ++ zeros (Z.to_nat (decpt - p)) ++ u ".0"
    else firstn (Z.to_nat decpt) digits ++ u "." ++ skipn (Z.to_nat decpt) digits
  else
    let ex := decpt - 1 in
    let mant :=
      match digits with
      | [] => []
      | [c] => [c]
      | c :: rest => c :: u "." ++ rest
      end in
    mant ++ u "e" ++ (if ex <? 0 then u "-" else u "+")
         ++ (if Z.abs ex <? 10 then u "0" else []) ++ str_nonneg (Z.abs ex).

(** Trailing zeros of the digit string carry no information. *)
Fixpoint drop_zeros (fuel : nat) (c : Z) : Z :=
  match fuel with
  | O => c
  | S fuel' => if (c mod 10 =? 0) && (0 <? c) then drop_zeros fuel' (c / 10) else c
  end.

Definition repr_float (f : float) : pystr :=
  let sign (s : bool) : pystr := if s then u "-" else [] in
  match f with
  | S754_zero s => sign s ++ u "0.0"
  | S754_infinity s => sign s ++ u "inf"
  | S754_nan => u "nan"
  | S754_finite s m e =>
      let '(n, d) := fraction_of m e in
      let t := decimal_point n d in
      let x := S754_finite false m e in
      let '(c, sc) := shortest 16 1 x n d t in
      let c' := drop_zeros 17 c in
      (* value = c * 10^(-sc): the point sits [ndigits c - sc] places in *)
      sign s ++ layout (str_nonneg c') (ndigits c - sc)
  end.

(** ** Numbers, by run-time class *)

Inductive number : Type :=
| PyInt (z : Z)          (* int *)
| NpInt64 (z : Z)        (* numpy.int64: not a subclass of int *)
| PyFloat (f : float)    (* float *)
| NpFloat64 (f : float). (* numpy.float64: a subclass of float with its own
                            arithmetic and its own [__round__] *)

Definition to_float (n : number) : float :=
  match n with
  | PyInt z | NpInt64 z => float_of_int z
  | PyFloat f | NpFloat64 f => f
  end.

(** The operand is a numpy scalar. *)
Definition is_numpy (n : number) : bool :=
  match n with
  | NpInt64 _ | NpFloat64 _ => true
  | _ => false
  end.

(** A float result, of the numpy class as soon as one operand is. *)
Definition as_float (numpy : bool) (f : float) : number :=
  if numpy then NpFloat64 f else PyFloat f.

(** [n == 0] *)
Definition is_zero (n : number) : bool :=
  match n with
  | PyInt z | NpInt64 z => z =? 0
  | PyFloat f | NpFloat64 f => SFeqb f fzero
  end.

(** [n > 0] *)
Definition gt0 (n : number) : bool :=
  match n with
  | PyInt z | NpInt64 z => 0 <? z
  | PyFloat f | NpFloat64 f => SFltb fzero f
  end.

(** [n >= 0] *)
Definition ge0 (n : number) : bool :=
  match n with
  | PyInt z | NpInt64 z => 0 <=? z
  | PyFloat f | NpFloat64 f => SFleb fzero f
  end.

(** [n < 0] *)
Definition lt0 (n : number) : bool :=
  match n with
  | PyInt z | NpInt64 z => z <? 0
  | PyFloat f | NpFloat64 f => SFltb f fzero
  end.

(** [a < b]: two ints are compared exactly, otherwise as floats (a nan
    compares false with everything). *)
Definition number_lt (a b : number) : bool :=
  match a, b with
  | PyInt x, PyInt y | PyInt x, NpInt64 y
  | NpInt64 x, PyInt y | NpInt64 x, NpInt64 y => x <? y
  | _, _ => SFltb (to_float a) (to_float b)
  end.

(** [min(a, b)]: the first argument unless the second is smaller. *)
Definition py_min (a b : number) : number := if number_lt b a then b else a.

(** [max(a, b)]: the first argument unless the second is larger. *)
Definition py_max (a b : number) : number := if number_lt a b then b else a.

(** The quotient of [a / b]: two ints are divided exactly and rounded once,
    otherwise both operands are floats and the result is of the numpy class
    as soon as one operand is. *)
Definition quotient (a b : number) : number :=
  match a, b with
  | PyInt x, PyInt y => PyFloat (int_truediv x y)
  | _, _ => as_float (is_numpy a || is_numpy b) (fdiv (to_float a) (to_float b))
  end.

(** [a / b]: true division.  Between Python numbers a zero divisor raises;
    numpy divides by zero into an infinity or a nan. *)
Definition truediv (a b : number) : result number :=
  if is_zero b && negb (is_numpy a || is_numpy b) then Raise ZeroDivisionError
  else Ok (quotient a b).

(** A numpy.int64 wraps around. *)
Definition wrap64 (z : Z) : Z := (z + 2 ^ 63) mod 2 ^ 64 - 2 ^ 63.

(** [q * 100] *)
Definition times100 (q : number) : number :=
  match q with
  | PyInt z => PyInt (z * 100)
  | NpInt64 z => NpInt64 (wrap64 (z * 100))
  | PyFloat f => PyFloat (fmul f (float_of_int 100))
  | NpFloat64 f => NpFloat64 (fmul f (float_of_int 100))
  end.

(** [a - b] *)
Definition number_sub (a b : number) : number :=
  match a, b with
  | PyInt x, PyInt y => PyInt (x - y)
  | PyInt x, NpInt64 y | NpInt64 x, PyInt y | NpInt64 x, NpInt64 y =>
      NpInt64 (wrap64 (x - y))
  | _, _ => as_float (is_numpy a || is_numpy b) (fsub (to_float a) (to_float b))
  end.

(** [numpy.rint]: the nearest integer, ties to the even one; the sign of a
    zero result is the operand's. *)
Definition rint (f : float) : float :=
  match f with
  | S754_finite s m e =>
      if 0 <=? e then f
      else
        match div_half_even (Zpos m) (2 ^ (- e)) with
        | Zpos n => float_of_int (if s then Zneg n else Zpos n)
        | _ => S754_zero s
        end
  | _ => f
  end.

(** [round(x, 1)] on a numpy.float64: numpy scales by ten, rounds to the
    nearest integer and scales back, each step a binary64 operation. *)
Definition np_round1 (f : float) : float :=
  fdiv (rint (fmul f (float_of_int 10))) (float_of_int 10).

(** [round(n, 1)]: an integer is returned as it is, a float goes through
    the correctly rounded [float.__round__], a numpy.float64 through
    numpy's. *)
Definition round1 (n : number) : number :=
  match n with
  | PyFloat f => PyFloat (round1_float f)
  | NpFloat64 f => NpFloat64 (np_round1 f)
  | _ => n
  end.

(** [f"{n:.1f}"]: an integer is printed as the float it converts to; a
    numpy.float64 inherits the formatting of [float]. *)
Definition format_1f (n : number) : pystr := format_1f_float (to_float n).

(** [pd.isna(n)] on a number: only a float nan is missing. *)
Definition number_isna (n : number) : bool :=
  match n with
  | PyFloat S754_nan | NpFloat64 S754_nan => true
  | _ => false
  end.

(** ** Timestamps *)

(** A [pandas.Timestamp], by its calendar fields; [tz] is the offset from
    UTC in seconds of a timezone-aware Timestamp and [None] for a naive
    one. *)
Record Timestamp : Type := mkTimestamp {
  year : Z; month : Z; day : Z;
  hour : Z; minute : Z; second : Z;
  microsecond : Z; nanosecond : Z;
  tz : option Z
}.

(** What [pd.to_datetime] returns on a scalar: a Timestamp, or [pd.NaT]. *)
Inductive datetime : Type :=
| Stamp (t : Timestamp)
| NaT.

(** Days since 1970-01-01 in the proleptic Gregorian calendar. *)
Definition days_from_civil (y m d : Z) : Z :=
  let y' := if m <=? 2 then y - 1 else y in
  let era := y' / 400 in
  let yoe := y' - era * 400 in
  let mp := (m + 9) mod 12 in
  let doy := (153 * mp + 2) / 5 + d - 1 in
  let doe := yoe * 365 + yoe / 4 - yoe / 100 + doy in
  era * 146097 + doe - 719468.

(** Nanoseconds since the epoch: the [value] of the Timestamp, counted on
    the wall clock for a naive Timestamp and in UTC for an aware one. *)
Definition ns_of (t : Timestamp) : Z :=
  ((days_from_civil (year t) (month t) (day t) * 24 + hour t) * 60 + minute t)
    * 60 * 1000000000
  + second t * 1000000000 + microsecond t * 1000 + nanosecond t
  - match tz t with
    | Some offset => offset * 1000000000
    | None => 0
    end.

(** Whole days from [b] to [a], rounded down: the [days] of the Timedelta
    [a - b] when that subtraction succeeds. *)
Definition days_between (a b : Timestamp) : Z :=
  (ns_of a - ns_of b) / 86400000000000.

(** A naive and an aware Timestamp cannot be subtracted. *)
Definition same_awareness (a b : Timestamp) : bool :=
  match tz a, tz b with
  | None, None | Some _, Some _ => true
  | _, _ => false
  end.

(** A Timedelta holds its nanoseconds in a signed 64-bit integer. *)
Definition fits_timedelta (ns : Z) : bool := (- 2 ^ 63 <? ns) && (ns <? 2 ^ 63).

(** [(a - b).days].  The difference of two Timestamps is a Timedelta:
    mixing a naive and an aware Timestamp raises, and so does a difference
    that does not fit; against [NaT] the difference is [NaT], whose [days]
    is the float nan. *)
Definition sub_days (a b : datetime) : result number :=
  match a, b with
  | Stamp x, Stamp y =>
      if negb (same_awareness x y) then Raise TypeError
      else if negb (fits_timedelta (ns_of x - ns_of y)) then Raise OutOfBoundsDatetime
      else Ok (PyInt (days_between x y))
  | _, _ => Ok (PyFloat S754_nan)
  end.

(** The offset of an aware Timestamp as [str] prints it: [+HH:MM]. *)
Definition str_offset (offset : Z) : pystr :=
  let a := Z.abs offset in
  (if offset <? 0 then u "-" else u "+")
  ++ pad 2 (a / 3600) ++ u ":" ++ pad 2 (a / 60 mod 60)
  ++ (if a mod 60 =? 0 then [] else u ":" ++ pad 2 (a mod 60)).

(** [t.strftime('%Y-%m-%d %H:%M:%S')] *)
Definition strftime (t : Timestamp) : pystr :=
  pad 4 (year t) ++ u "-" ++ pad 2 (month t) ++ u "-" ++ pad 2 (day t)
  ++ u " " ++ pad 2 (hour t) ++ u ":" ++ pad 2 (minute t)
  ++ u ":" ++ pad 2 (second t).

(** [str(t)]: the seconds form, then the fraction when there is one, then
    the offset of an aware Timestamp. *)
Definition str_timestamp (t : Timestamp) : pystr :=
  strftime t ++
  (if nanosecond t =? 0 then
     if microsecond t =? 0 then [] else u "." ++ pad 6 (microsecond t)
   else u "." ++ pad 6 (microsecond t) ++ pad 3 (nanosecond t))
  ++ match tz t with
     | Some offset => str_offset offset
     | None => []
     end.

(** ** Cell values *)

Inductive value : Type :=
| VNone                       (* None *)
| VNaT                        (* pandas.NaT *)
| VStr (s : pystr)
| VNum (n : number)           (* a missing cell is the float nan *)
| VTimestamp (t : Timestamp).

Definition nan : value := VNum (PyFloat S754_nan).

(** [pd.isna(v)] *)
Definition isna (v : value) : bool :=
  match v with
  | VNone | VNaT => true
  | VNum n => number_isna n
  | _ => false
  end.

(** [str(v)] *)
Definition str (v : value) : pystr :=
  match v with
  | VNone => u "None"
  | VNaT => u "NaT"
  | VStr s => s
  | VNum (PyInt z) | VNum (NpInt64 z) => str_int z
  | VNum (PyFloat f) | VNum (NpFloat64 f) => repr_float f
  | VTimestamp t => str_timestamp t
  end.

(** ** The pandas parsers

    The two parsers the script calls are the library's; the pipeline is
    defined, and its properties proved, for every behaviour they can have
    within these types.  [to_numeric s] is
    [pd.to_numeric(s, errors='coerce')]: text it cannot read comes back as
    a float nan.  [to_datetime v dayfirst] is
    [pd.to_datetime(v, dayfirst=dayfirst)]: it yields a Timestamp, naive
    or aware, or [NaT] (for the text [NaT], say), or raises. *)
Class Pandas : Type := {
  to_numeric : pystr -> result number;
  to_datetime : value -> bool -> result datetime
}.

(** ** Rows *)

(** A row: column labels and their cells, in column order. *)
Definition Series : Type := list (string * value).

Fixpoint lookup {A : Type} (key : string) (row : list (string * A)) : option A :=
  match row with
  | [] => None
  | (k, v) :: rest => if String.eqb k key then Some v else lookup key rest
  end.

(** [row[key]] *)
Definition getitem (row : Series) (key : string) : result value :=
  match lookup key row with
  | Some v => Ok v
  | None => Raise (KeyError key)
  end.

(** A text made of whitespace only (the empty text included). *)
Definition whitespace_only (s : pystr) : Prop := forallb isspace s = true.

(** ** The pipeline: [generate_sheet2_data] *)

Definition col_state : string := "State".
Definition col_targeted : string := "No. of Plots Targeted for Rabi DCS".
Definition col_start : string := "Rabi DCS Activity Start Date".
Definition col_end : string := "Rabi DCS Activity End Date".

(** The indicator glyphs of the two gap labels, as the source file holds
    them once decoded. *)
Definition positive_glyph : pystr := [226; 339; 8230]%N.
Definition negative_glyph : pystr := [240; 376; 8221; 187]%N.

(** The fields read off one row that is not skipped. *)
Record Projected : Type := mkProjected {
  state : value;
  plots_targeted : number;
  start_date : value;
  end_date : value;
  start_date_parsed : option datetime;   (* None, a Timestamp or NaT *)
  end_date_parsed : option datetime
}.

(** The derived fields of one row, before rounding. *)
Record Progress : Type := mkProgress {
  total_plots_surveyed : number;
  total_days : number;
  days_elapsed : number;
  required_per_day : number;
  actual_per_day : number;
  required_percentage : number;
  actual_percentage : number;
  gap : number;
  gap_formatted : pystr
}.

(** [pd.isna(row['State']) or str(row['State']).strip() == ''] *)
Definition skip_state (st : value) : bool :=
  isna st || pystr_eqb (strip (str st)) [].

Section Pipeline.

Context {pd : Pandas}.

(** Lines 53-59: the target count as a number. *)
Definition coerce_plots_targeted (cell : value) : number :=
  try_except
    (n <- to_numeric (replace_comma (str cell)) ;;
     Ok (if number_isna n then PyInt 0 else n))
    (PyInt 0).

(** One date cell, inside the [try] block. *)
Definition parse_date (cell : value) : result (option datetime) :=
  if negb (isna cell) then t <- to_datetime cell true ;; Ok (Some t)
  else Ok None.

(** Lines 61-67: both dates, under one handler. *)
Definition parse_dates (start_cell end_cell : value)
  : option datetime * option datetime :=
  try_except
    (s <- parse_date start_cell ;;
     e <- parse_date end_cell ;;
     Ok (s, e))
    (None, None).

(** Lines 36-67: skip the row or read its fields. *)
Definition project (row : Series) : result (option Projected) :=
  st <- getitem row col_state ;;
  if skip_state st then Ok None
  else
    state <- getitem row col_state ;;
    targeted <- getitem row col_targeted ;;
    start_cell <- getitem row col_start ;;
    end_cell <- getitem row col_end ;;
    let plots := coerce_plots_targeted targeted in
    let '(s, e) := parse_dates start_cell end_cell in
    Ok (Some (mkProjected state plots start_cell end_cell s e)).

End Pipeline.

(** Lines 73-79: total and elapsed days.  A parsed date is true in
    [if start_date_parsed and end_date_parsed] unless it is [None]: [NaT]
    takes the dated branch.  The two subtractions stand outside every
    [try]. *)
Definition day_counts (current_date : Timestamp)
  (start_parsed end_parsed : option datetime) : result (number * number) :=
  match start_parsed, end_parsed with
  | Some s, Some e =>
      total_days <- sub_days e s ;;
      days_elapsed <- sub_days (Stamp current_date) s ;;
      Ok (total_days, py_max (PyInt 0) (py_min days_elapsed total_days))
  | _, _ => Ok (PyInt 0, PyInt 0)
  end.

(** Lines 97-100: the gap label. *)
Definition format_gap (gap : number) : pystr :=
  if ge0 gap then positive_glyph ++ u " +" ++ format_1f gap ++ u "%"
  else negative_glyph ++ format_1f gap ++ u "%".

(** Lines 69-100: the derived fields. *)
Definition calculate (current_date : Timestamp) (p : Projected) : result Progress :=
  let total_plots_surveyed := PyInt 0 in
  counts <- day_counts current_date (start_date_parsed p) (end_date_parsed p) ;;
  let '(total_days, days_elapsed) := counts in
  required_per_day <-
    (if gt0 total_days then truediv (plots_targeted p) total_days
     else Ok (PyInt 0)) ;;
  actual_per_day <-
    (if gt0 days_elapsed then truediv total_plots_surveyed days_elapsed
     else Ok (PyInt 0)) ;;
  required_percentage <-
    (if gt0 total_days
     then q <- truediv days_elapsed total_days ;; Ok (times100 q)
     else Ok (PyInt 0)) ;;
  actual_percentage <-
    (if gt0 (plots_targeted p)
     then q <- truediv total_plots_surveyed (plots_targeted p) ;; Ok (times100 q)
     else Ok (PyInt 0)) ;;
  let gap := number_sub actual_percentage required_percentage in
  Ok (mkProgress total_plots_surveyed total_days days_elapsed
        required_per_day actual_per_day required_percentage actual_percentage
        gap (format_gap gap)).

(** Lines 103-117: the output row, keys in the order written. *)
Definition sheet2_row (p : Projected) (m : Progress) : Series :=
  [ ("a", state p);
    ("b", VNum (plots_targeted p));
    ("c", VNum (total_plots_surveyed m));
    ("d", start_date p);
    ("e", end_date p);
    ("days", VNum (days_elapsed m));
    ("Total Days", VNum (total_days m));
    ("Days Elapsed", VNum (days_elapsed m));
    ("Required /day", VNum (round1 (required_per_day m)));
    ("Actual /day", VNum (round1 (actual_per_day m)));
    ("Required % (Time elapsed)", VNum (round1 (required_percentage m)));
    ("Actual % (Survey done)", VNum (round1 (actual_percentage m)));
    ("Gap", VStr (gap_formatted m)) ]%string.

Section Generate.

Context {pd : Pandas}.

(** One iteration of the loop: [None] when the row is skipped. *)
Definition process_row (current_date : Timestamp) (row : Series)
  : result (option Series) :=
  r <- project row ;;
  match r with
  | None => Ok None
  | Some p => m <- calculate current_date p ;; Ok (Some (sheet2_row p m))
  end.

(** The loop over [iterrows()]: rows are handled in order and the first
    exception ends the run. *)
Fixpoint rows_loop (current_date : Timestamp) (rows : list Series)
  : result (list Series) :=
  match rows with
  | [] => Ok []
  | row :: rest =>
      r <- process_row current_date row ;;
      data <- rows_loop current_date rest ;;
      Ok (match r with
          | None => data
          | Some out => out :: data
          end)
  end.

(** [generate_sheet2_data(sheet1_df)], with [pd.Timestamp.now()] as
    [current_date]. *)
Definition generate_sheet2_data (current_date : Timestamp)
  (sheet1_df : option (list Series)) : result (option (list Series)) :=
  match sheet1_df with
  | None => Ok None
  | Some rows => data <- rows_loop current_date rows ;; Ok (Some data)
  end.

End Generate.

(** ** Serialisation: [convert_to_json] *)

(** The native values [json.dumps] writes. *)
Inductive json : Type :=
| JNull
| JInt (z : Z)
| JFloat (f : float)
| JString (s : pystr).

(** [convert_types(obj)] *)
Definition convert_types (obj : value) : json :=
  if isna obj then JNull
  else
    match obj with
    | VTimestamp t => JString (strftime t)
    | VNum (PyInt z) => JInt z
    | VNum (PyFloat f) | VNum (NpFloat64 f) => JFloat f
    | _ => JString (str obj)
    end.

(** [convert_to_json(data)], up to the rendering of the converted rows as
    text by [json.dumps]. *)
Definition convert_to_json (data : option (list Series))
  : option (list (list (string * json))) :=
  match data with
  | None => None
  | Some rows =>
      Some (List.map (List.map (fun kv => (fst kv, convert_types (snd kv)))) rows)
  end.

(** ** A parser instance for the scenarios

    Decimal numerals for [to_numeric]; [D/M/YYYY] text, the text [NaT] and
    Timestamp cells for [to_datetime].  An integer numeral comes back as a
    numpy.int64, a numeral with a fraction as a numpy.float64, anything
    else as nan. *)
Module Reference.

Definition is_digit (c : N) : bool := ((48 <=? c) && (c <=? 57))%N.

Fixpoint digits_value (acc : Z) (s : pystr) : Z :=
  match s with
  | [] => acc
  | c :: rest => digits_value (10 * acc + (Z.of_N c - 48)) rest
  end.

Fixpoint span_digits (s : pystr) : pystr * pystr :=
  match s with
  | [] => ([], [])
  | c :: rest =>
      if is_digit c
      then let '(ds, tl) := span_digits rest in (c :: ds, tl)
      else ([], s)
  end.

Definition split_sign (s : pystr) : bool * pystr :=
  match s with
  | 45%N :: rest => (true, rest)
  | 43%N :: rest => (false, rest)
  | _ => (false, s)
  end.

Definition is_nil {A : Type} (l : list A) : bool :=
  match l with
  | [] => true
  | _ => false
  end.

Definition parse_number (s : pystr) : number :=
  let '(neg, body) := split_sign s in
  let '(ip, rest) := span_digits body in
  let signed (z : Z) : Z := if neg then - z else z in
  match rest with
  | [] =>
      if is_nil ip then NpFloat64 S754_nan
      else
        let z := signed (digits_value 0 ip) in
        if (- 2 ^ 63 <=? z) && (z <? 2 ^ 63) then NpInt64 z
        else NpFloat64 (float_of_int z)
  | 46%N :: fp =>
      if forallb is_digit fp && negb (is_nil ip && is_nil fp) then
        let q := int_truediv (digits_value 0 (ip ++ fp))
                             (10 ^ Z.of_nat (List.length fp)) in
        NpFloat64 (if neg then SFopp q else q)
      else NpFloat64 S754_nan
  | _ => NpFloat64 S754_nan
  end.

Definition to_numeric (s : pystr) : result number := Ok (parse_number s).

Fixpoint split_slash (cur : pystr) (s : pystr) : list pystr :=
  match s with
  | [] => [rev cur]
  | c :: rest =>
      if (c =? 47)%N then rev cur :: split_slash [] rest
      else split_slash (c :: cur) rest
  end.

Definition numeral (s : pystr) : option Z :=
  if negb (is_nil s) && forallb is_digit s then Some (digits_value 0 s) else None.

Definition is_leap (y : Z) : bool :=
  (y mod 4 =? 0) && (negb (y mod 100 =? 0) || (y mod 400 =? 0)).

Definition days_in_month (y m : Z) : Z :=
  if m =? 2 then (if is_leap y then 29 else 28)
  else if (m =? 4) || (m =? 6) || (m =? 9) || (m =? 11) then 30
  else 31.

Definition valid_date (y m d : Z) : bool :=
  (1 <=? m) && (m <=? 12) && (1 <=? d) && (d <=? days_in_month y m).

Definition midnight (y m d : Z) : Timestamp := mkTimestamp y m d 0 0 0 0 0 None.

(** A Timestamp holds its nanoseconds in a signed 64-bit integer: a date
    before 1677-09-22 or after 2262-04-11 is refused. *)
Definition in_bounds (t : Timestamp) : result datetime :=
  if fits_timedelta (ns_of t) then Ok (Stamp t) else Raise OutOfBoundsDatetime.

(** [A/B/YYYY]: day first when asked and possible, month first otherwise. *)
Definition parse_dmy (s : pystr) (dayfirst : bool) : result datetime :=
  match List.map numeral (split_slash [] s) with
  | [Some a; Some b; Some y] =>
      let '(d, m) := if dayfirst then (a, b) else (b, a) in
      if valid_date y m d then in_bounds (midnight y m d)
      else if valid_date y d m then in_bounds (midnight y d m)
      else Raise ValueError
  | _ => Raise ValueError
  end.

Definition to_datetime (v : value) (dayfirst : bool) : result datetime :=
  match v with
  | VTimestamp t => Ok (Stamp t)
  | VStr s => if pystr_eqb s (u "NaT") then Ok NaT else parse_dmy s dayfirst
  | _ => Raise TypeError
  end.

Definition pandas : Pandas := Build_Pandas to_numeric to_datetime.

End Reference.

(** ** The scenario row *)

Definition row_of (st targeted start_cell end_cell : value) : Series :=
  [ (col_state, st); (col_targeted, targeted);
    (col_start, start_cell); (col_end, end_cell) ].

Definition bihar : Series :=
  row_of (VStr (u "Bihar")) (VStr (u "1,200"))
         (VStr (u "01/01/2026")) (VStr (u "31/01/2026")).

(** The row carries the four columns the script reads. *)
Definition has_columns (row : Series) : Prop :=
  exists st targeted start_cell end_cell,
    lookup col_state row = Some st
    /\ lookup col_targeted row = Some targeted
    /\ lookup col_start row = Some start_cell
    /\ lookup col_end row = Some end_cell.

Definition now_2026_01_13 : Timestamp := Reference.midnight 2026 1 13.

(** The run of the script on a table, with the scenario parsers and clock;
    the empty list stands for a run that raised. *)
Definition run (rows : list Series) : list Series :=
  match @generate_sheet2_data Reference.pandas now_2026_01_13 (Some rows) with
  | Ok (Some data) => data
  | _ => []
  end.

(** The first record of a run. *)
Definition first_record (data : list Series) : Series := hd [] data.

(** Variations of the scenario row: the end date before the start date, a
    target that is no number, an end date that is no date, a missing end
    date, a blank state. *)
Definition reversed : Series :=
  row_of (VStr (u "Bihar")) (VStr (u "1,200"))
         (VStr (u "31/01/2026")) (VStr (u "01/01/2026")).

Definition abc_target : Series :=
  row_of (VStr (u "Bihar")) (VStr (u "abc"))
         (VStr (u "01/01/2026")) (VStr (u "31/01/2026")).

Definition bad_end : Series :=
  row_of (VStr (u "Bihar")) (VStr (u "1,200"))
         (VStr (u "01/01/2026")) (VStr (u "soon")).

Definition missing_end : Series :=
  row_of (VStr (u "Bihar")) (VStr (u "1,200")) (VStr (u "01/01/2026")) nan.

Definition blank_state : Series :=
  row_of (VStr (u "  ")) (VStr (u "1,200"))
         (VStr (u "01/01/2026")) (VStr (u "31/01/2026")).

(** Further variations: an end date written [NaT], a start date more than
    292 years before the end date, a start date that carries a UTC offset,
    a missing target, and a target of 7 plots over twenty days. *)
Definition nat_end : Series :=
  row_of (VStr (u "Bihar")) (VStr (u "1,200"))
         (VStr (u "01/01/2026")) (VStr (u "NaT")).

Definition far_start : Series :=
  row_of (VStr (u "Bihar")) (VStr (u "1,200"))
         (VStr (u "01/01/1700")) (VStr (u "31/01/2026")).

Definition aware_start : Series :=
  row_of (VStr (u "Bihar")) (VStr (u "1,200"))
         (VTimestamp (mkTimestamp 2026 1 1 0 0 0 0 0 (Some 19800)))
         (VTimestamp (mkTimestamp 2026 1 31 0 0 0 0 0 (Some 19800))).

Definition missing_target : Series :=
  row_of (VStr (u "Bihar")) nan
         (VStr (u "01/01/2026")) (VStr (u "31/01/2026")).

Definition seven_plots : Series :=
  row_of (VStr (u "Bihar")) (VStr (u "7"))
         (VStr (u "01/01/2026")) (VStr (u "21/01/2026")).

(** The scenario row with an end date thirty-seven days after the start. *)
Definition long_plan : Series :=
  row_of (VStr (u "Bihar")) (VStr (u "1,200"))
         (VStr (u "01/01/2026")) (VStr (u "07/02/2026")).

(** ** What one row contributes *)

(** The records one row adds to the output: one, or none when the row is
    skipped. *)
Definition emitted {pd : Pandas} (current_date : Timestamp) (row : Series)
  : list Series :=
  match process_row current_date row with
  | Ok (Some out) => [out]
  | _ => []
  end.

(** The keys of an output row, in the order the script writes them. *)
Definition sheet2_keys : list string :=
  [ "a"; "b"; "c"; "d"; "e"; "days"; "Total Days"; "Days Elapsed";
    "Required /day"; "Actual /day"; "Required % (Time elapsed)";
    "Actual % (Survey done)"; "Gap" ]%string.

(** A row that carries the state column only. *)
Definition state_only (st : value) : Series := [ (col_state, st) ].

(** A row of a table that has no column at all. *)
Definition empty_row : Series := [].

(** The fields of the scenario row once projected. *)
Definition january_plan : Projected :=
  mkProjected (VStr (u "Bihar")) (NpInt64 1200)
    (VStr (u "01/01/2026")) (VStr (u "31/01/2026"))
    (Some (Stamp (Reference.midnight 2026 1 1)))
    (Some (Stamp (Reference.midnight 2026 1 31))).

(** ** The table loader: [read_excel_sheet1] *)

(** A frame: the column labels and the rows of cells, each row as long as
    the labels. *)
Record DataFrame : Type := mkDataFrame {
  columns : list value;
  cells : list (list value)
}.

(** The exceptions caught along the way, as objects: those [pd.read_excel],
    [open], [write] and [json.loads] raise carry the text the library gives
    them. *)
Inductive failure : Type :=
| FileNotFoundError
| LibraryError (message : pystr)
| ColumnIndexError (size : nat)            (* [df.columns[1]] *)
| RowIndexError                            (* [df.iloc[0]] on no rows *)
| LengthMismatch (expected given : nat).   (* [df.columns = new_columns] *)

Inductive attempt (A : Type) : Type :=
| Done (a : A)
| Failed (e : failure).
Arguments Done {A} a.
Arguments Failed {A} e.

(** One call of [print]: a text, or a text that ends with the exception it
    formats. *)
Inductive printed : Type :=
| Line (text : pystr)
| LineWithError (text : pystr) (e : failure).

Fixpoint starts_with (prefix s : pystr) : bool :=
  match prefix, s with
  | [], _ => true
  | _ :: _, [] => false
  | a :: prefix', b :: s' => (a =? b)%N && starts_with prefix' s'
  end.

(** [needle in hay] *)
Fixpoint contains (needle hay : pystr) : bool :=
  starts_with needle hay
  || match hay with
     | [] => false
     | _ :: rest => contains needle rest
     end.

(** Lines 13-17, inside the [try] block: when the second label reads as
    unnamed, the first row becomes the labels and leaves the data. *)
Definition promote_header (df : DataFrame) : attempt DataFrame :=
  match nth_error (columns df) 1 with
  | None => Failed (ColumnIndexError (List.length (columns df)))
  | Some label =>
      if contains (u "Unnamed") (str label) then
        match cells df with
        | [] => Failed RowIndexError
        | new_columns :: rest =>
            if Nat.eqb (List.length new_columns) (List.length (columns df))
            then Done (mkDataFrame new_columns rest)
            else Failed (LengthMismatch (List.length (columns df))
                           (List.length new_columns))
        end
      else Done df
  end.

(** [read_excel_sheet1(file_path)], given what [pd.read_excel] does on the
    file: what is printed and what is returned. *)
Definition read_excel_sheet1 (file_path : pystr) (excel : attempt DataFrame)
  : list printed * option DataFrame :=
  match
    match excel with
    | Done df => promote_header df
    | Failed e => Failed e
    end
  with
  | Done df => ([], Some df)
  | Failed FileNotFoundError =>
      ([Line (u "Error: File '" ++ file_path ++ u "' not found.")], None)
  | Failed e => ([LineWithError (u "Error reading Excel file: ") e], None)
  end.

(** ** From a frame to its rows: [iterrows] *)

Fixpoint key_of_text (s : pystr) : option string :=
  match s with
  | [] => Some EmptyString
  | c :: rest =>
      match key_of_text rest with
      | Some k => if (c <? 256)%N then Some (String (ascii_of_N c) k) else None
      | None => None
      end
  end.

(** The key under which a label can be looked up: labels that are no text,
    or hold a code point past 255, equal none of the names the script asks
    for. *)
Definition label_key (label : value) : option string :=
  match label with
  | VStr s => key_of_text s
  | _ => None
  end.

Fixpoint to_series (labels : list value) (row : list value) : Series :=
  match labels, row with
  | label :: labels', cell :: row' =>
      match label_key label with
      | Some k => (k, cell) :: to_series labels' row'
      | None => to_series labels' row'
      end
  | _, _ => []
  end.

(** The rows [df.iterrows()] yields, labels supposed distinct. *)
Definition iterrows (df : DataFrame) : list Series :=
  List.map (to_series (columns df)) (cells df).

(** ** The JSON text: [json.dumps(..., indent=2, ensure_ascii=False)] *)

Definition hex_digit (d : N) : N := (if d <? 10 then 48 + d else 87 + d)%N.

(** One character of a JSON string. *)
Definition escape_char (c : N) : pystr :=
  if (c =? 34)%N then [92; 34]%N            (* a quote: backslash, quote *)
  else if (c =? 92)%N then [92; 92]%N       (* a backslash, doubled *)
  else if (c =? 8)%N then [92; 98]%N        (* backspace: backslash, b *)
  else if (c =? 12)%N then [92; 102]%N      (* form feed: backslash, f *)
  else if (c =? 10)%N then [92; 110]%N      (* line feed: backslash, n *)
  else if (c =? 13)%N then [92; 114]%N      (* carriage return: backslash, r *)
  else if (c =? 9)%N then [92; 116]%N       (* tab: backslash, t *)
  else if (c <? 32)%N
  then [92; 117; 48; 48; hex_digit (c / 16); hex_digit (c mod 16)]%N
  else [c].

Definition dumps_text (s : pystr) : pystr :=
  [34%N] ++ flat_map escape_char s ++ [34%N].

Definition dumps_float (f : float) : pystr :=
  match f with
  | S754_nan => u "NaN"
  | S754_infinity false => u "Infinity"
  | S754_infinity true => u "-Infinity"
  | _ => repr_float f
  end.

Definition dumps_value (j : json) : pystr :=
  match j with
  | JNull => u "null"
  | JInt z => str_int z
  | JFloat f => dumps_float f
  | JString s => dumps_text s
  end.

(** Items, one a line, at the given indentation. *)
Fixpoint join_lines (indent : pystr) (items : list pystr) : pystr :=
  match items with
  | [] => []
  | [item] => indent ++ item
  | item :: rest => indent ++ item ++ u "," ++ [10%N] ++ join_lines indent rest
  end.

Definition dumps_object (obj : list (string * json)) : pystr :=
  match obj with
  | [] => u "{}"
  | _ =>
      u "{" ++ [10%N]
      ++ join_lines (u "    ")
           (List.map (fun kv => dumps_text (u (fst kv)) ++ u ": "
                                ++ dumps_value (snd kv)) obj)
      ++ [10%N] ++ u "  }"
  end.

(** The text of a list of objects. *)
Definition dumps (objs : list (list (string * json))) : pystr :=
  match objs with
  | [] => u "[]"
  | _ =>
      u "[" ++ [10%N]
      ++ join_lines (u "  ") (List.map dumps_object objs)
      ++ [10%N] ++ u "]"
  end.

(** [convert_to_json(data)], as the text it returns. *)
Definition convert_to_json_text (data : option (list Series)) : option pystr :=
  option_map dumps (convert_to_json data).

(** ** The driver: [main] *)

Definition excel_file : pystr := u "Rabi_Plan_Sheet1.xlsx".
Definition output_file : pystr := u "sheet2_data.json".

(** What [main] meets outside the program: whether the input file exists,
    what [pd.read_excel] does on it, the clock, the exception [open] or
    [write] raises on the output file, if any, and [json.loads]. *)
Record World : Type := mkWorld {
  path_exists : bool;
  excel : attempt DataFrame;
  clock : Timestamp;
  disk : option failure;
  loads : pystr -> attempt (list (list (string * json)))
}.

(** What a run of [main] leaves: the calls of [print], in order; the text
    saved to the output file when the save went through; the exception
    that ended the run, if one escaped. *)
Record Outcome : Type := mkOutcome {
  log : list printed;
  saved : option pystr;
  uncaught : option exn
}.

Definition column_mapping : list printed :=
  [ Line ([10%N] ++ u "Column Mapping:");
    Line (u "a = State");
    Line (u "b = No. of Plots Targeted for Rabi DCS");
    Line (u "c = Total Plots Surveyed (currently set to 0)");
    Line (u "d = Rabi DCS Activity Start Date");
    Line (u "e = Rabi DCS Activity End Date") ].

(** Lines 204-211: the preview of the first records. *)
Definition preview_lines (w : World) (json_output : pystr) : list printed :=
  Line ([10%N] ++ u "First 3 records of Sheet2 data in JSON format:")
  :: match loads w json_output with
     | Done data_list =>
         let preview :=
           if (3 <? List.length data_list)%nat then firstn 3 data_list
           else data_list in
         [Line (dumps preview)]
     | Failed e => [LineWithError (u "Error displaying preview: ") e]
     end.

Definition nat_text (n : nat) : pystr := str_int (Z.of_nat n).

Section Driver.

Context {pd : Pandas}.

(** [main()] *)
Definition main (w : World) : Outcome :=
  if negb (path_exists w) then
    mkOutcome
      [ Line (u "Error: '" ++ excel_file ++ u "' not found in current directory.");
        Line (u "Please ensure the file is in the same directory as this script.") ]
      None None
  else
    let log0 := [Line (u "Reading Sheet1 from " ++ excel_file ++ u "...")] in
    let '(messages, loaded) := read_excel_sheet1 excel_file (excel w) in
    match loaded with
    | None => mkOutcome (log0 ++ messages) None None
    | Some sheet1_df =>
        let log1 :=
          log0 ++ messages
          ++ [ Line (u "Sheet1 loaded successfully with "
                     ++ nat_text (List.length (cells sheet1_df)) ++ u " rows and "
                     ++ nat_text (List.length (columns sheet1_df))
                     ++ u " columns.");
               Line (u "Generating Sheet2 data with calculations...") ] in
        match generate_sheet2_data (clock w) (Some (iterrows sheet1_df)) with
        | Raise x => mkOutcome log1 None (Some x)
        | Ok None =>
            mkOutcome (log1 ++ [Line (u "Failed to generate Sheet2 data.")])
              None None
        | Ok (Some sheet2_data) =>
            let log2 :=
              log1
              ++ [ Line (u "Generated " ++ nat_text (List.length sheet2_data)
                         ++ u " rows for Sheet2.");
                   Line (u "Converting to JSON format...") ] in
            match convert_to_json_text (Some sheet2_data) with
            | None =>
                mkOutcome (log2 ++ [Line (u "Failed to convert to JSON.")])
                  None None
            | Some json_output =>
                let '(save_line, file) :=
                  match disk w with
                  | None =>
                      (Line (u "Sheet2 data saved to " ++ output_file),
                       Some json_output)
                  | Some e =>
                      (LineWithError (u "Error saving JSON file: ") e, None)
                  end in
                mkOutcome
                  (log2 ++ [save_line] ++ column_mapping
                   ++ preview_lines w json_output)
                  file None
            end
        end
    end.

End Driver.

(** The label reads [name]. *)
Definition is_label (name : string) (label : value) : bool :=
  match label_key label with
  | Some k => String.eqb k name
  | None => false
  end.

(** How many labels of the frame read [name]. *)
Definition count_label (name : string) (df : DataFrame) : nat :=
  List.length (filter (is_label name) (columns df)).

(** A frame that names each of the four columns the script asks for
    exactly once - under a repeated label [row[name]] is a Series, not a
    cell - and whose rows are as long as the labels. *)
Definition ready (df : DataFrame) : Prop :=
  (forall name : string,
     In name [col_state; col_targeted; col_start; col_end] ->
     count_label name df = 1%nat)
  /\ Forall (fun row => List.length row = List.length (columns df)) (cells df).

(** The scenario sheet, with its proper header and with the placeholder
    header spreadsheets give it. *)
Definition header : list value :=
  [ VStr (u col_state); VStr (u col_targeted);
    VStr (u col_start); VStr (u col_end) ].

Definition placeholder : list value :=
  [ VStr (u "Unnamed: 0"); VStr (u "Unnamed: 1");
    VStr (u "Unnamed: 2"); VStr (u "Unnamed: 3") ].

Definition sheet_rows : list (list value) :=
  [ [ VStr (u "Bihar"); VStr (u "1,200");
      VStr (u "01/01/2026"); VStr (u "31/01/2026") ];
    [ VStr (u "  "); VStr (u "1,200");
      VStr (u "01/01/2026"); VStr (u "31/01/2026") ];
    [ VStr (u "Assam"); nan; VStr (u "01/01/2026"); nan ] ].

Definition sheet : DataFrame := mkDataFrame header sheet_rows.

Definition raw_sheet : DataFrame := mkDataFrame placeholder (header :: sheet_rows).

(** A world for the scenario sheet: the file exists, and [json.loads]
    gives back [parsed] whatever the text. *)
Definition scenario_world (df : attempt DataFrame) (d : option failure)
  (parsed : attempt (list (list (string * json)))) : World :=
  mkWorld true df now_2026_01_13 d (fun _ => parsed).

(** A printed line that does not start with the letter F. *)
Definition no_leading_F (l : printed) : Prop :=
  match l with
  | Line (c :: _) => c <> 70%N
  | _ => True
  end.

(** The scenario sheet with its first column named otherwise. *)
Definition sheet_without_state : DataFrame :=
  mkDataFrame
    [ VStr (u "Region"); VStr (u col_targeted);
      VStr (u col_start); VStr (u col_end) ]
    sheet_rows.

(** * Properties *)

(** ** The error monad *)

Lemma bind_Ok_inv {A B : Type} (r : result A) (k : A -> result B) (b : B) :
  bind r k = Ok b -> exists a, r = Ok a /\ k a = Ok b.
Proof.
  destruct r as [a | e]; simpl; intros H.
  - exists a. split; [reflexivity | exact H].
  - discriminate H.
Qed.

Lemma bind_Raise_inv {A B : Type} (r : result A) (k : A -> result B) (x : exn) :
  bind r k = Raise x -> r = Raise x \/ exists a, r = Ok a /\ k a = Raise x.
Proof.
  destruct r as [a | e]; simpl; intros H.
  - right. exists a. split; [reflexivity | exact H].
  - left. injection H as ->. reflexivity.
Qed.

Lemma getitem_lookup (row : Series) (key : string) (v : value) :
  lookup key row = Some v -> getitem row key = Ok v.
Proof. unfold getitem. intros ->. reflexivity. Qed.

(** ** Comparisons with zero *)

Lemma gt0_not_zero (n : number) : gt0 n = true -> is_zero n = false.
Proof.
  destruct n as [z | z | f | f]; simpl.
  - intros H. apply Z.ltb_lt in H. apply Z.eqb_neq. lia.
  - intros H. apply Z.ltb_lt in H. apply Z.eqb_neq. lia.
  - destruct f as [s | s | | s m e]; try destruct s; simpl;
      intros H; try discriminate H; reflexivity.
  - destruct f as [s | s | | s m e]; try destruct s; simpl;
      intros H; try discriminate H; reflexivity.
Qed.

Lemma zero_not_gt0 (n : number) : is_zero n = true -> gt0 n = false.
Proof.
  intros H. destruct (gt0 n) eqn:G; [| reflexivity].
  apply gt0_not_zero in G. congruence.
Qed.

Lemma lt0_not_ge0 (n : number) : lt0 n = true -> ge0 n = false.
Proof.
  destruct n as [z | z | f | f]; simpl.
  - intros H. apply Z.ltb_lt in H. apply Z.leb_gt. exact H.
  - intros H. apply Z.ltb_lt in H. apply Z.leb_gt. exact H.
  - destruct f as [s | s | | s m e]; try destruct s; simpl;
      intros H; try discriminate H; reflexivity.
  - destruct f as [s | s | | s m e]; try destruct s; simpl;
      intros H; try discriminate H; reflexivity.
Qed.

Lemma truediv_nonzero (a b : number) :
  is_zero b = false -> truediv a b = Ok (quotient a b).
Proof. unfold truediv. intros ->. reflexivity. Qed.

Lemma truediv_pos (a b : number) :
  gt0 b = true -> truediv a b = Ok (quotient a b).
Proof. intros H. apply truediv_nonzero, gt0_not_zero, H. Qed.

(** The only exception a division raises. *)
Lemma truediv_Raise_inv (a b : number) (x : exn) :
  truediv a b = Raise x -> x = ZeroDivisionError /\ is_zero b = true.
Proof.
  unfold truediv. destruct (is_zero b); simpl.
  - destruct (negb (is_numpy a || is_numpy b)); intros H;
      [injection H as <-; split; reflexivity | discriminate H].
  - discriminate.
Qed.

(** ** Day counts *)

Lemma nan_not_lt_l (n : number) : number_lt (PyFloat S754_nan) n = false.
Proof. destruct n; reflexivity. Qed.

Lemma nan_not_lt_r (n : number) : number_lt n (PyFloat S754_nan) = false.
Proof.
  destruct n as [z | z | f | f]; unfold number_lt, to_float.
  - destruct (float_of_int z); reflexivity.
  - destruct (float_of_int z); reflexivity.
  - destruct f; reflexivity.
  - destruct f; reflexivity.
Qed.

(** The clamp of line 76 on two integers. *)
Lemma clamp_ints (k t : Z) :
  py_max (PyInt 0) (py_min (PyInt k) (PyInt t)) = PyInt (Z.max 0 (Z.min k t)).
Proof.
  unfold py_max, py_min, number_lt.
  destruct (t <? k) eqn:H1.
  - apply Z.ltb_lt in H1. rewrite (Z.min_r k t) by lia.
    destruct (0 <? t) eqn:H2.
    + apply Z.ltb_lt in H2. rewrite Z.max_r by lia. reflexivity.
    + apply Z.ltb_ge in H2. rewrite Z.max_l by lia. reflexivity.
  - apply Z.ltb_ge in H1. rewrite (Z.min_l k t) by lia.
    destruct (0 <? k) eqn:H2.
    + apply Z.ltb_lt in H2. rewrite Z.max_r by lia. reflexivity.
    + apply Z.ltb_ge in H2. rewrite Z.max_l by lia. reflexivity.
Qed.

(** The clamp when the total is nan: the elapsed count, kept from going
    below zero. *)
Lemma clamp_nan_total (k : Z) :
  py_max (PyInt 0) (py_min (PyInt k) (PyFloat S754_nan)) = PyInt (Z.max 0 k).
Proof.
  unfold py_min. rewrite nan_not_lt_l.
  unfold py_max, number_lt.
  destruct (0 <? k) eqn:H.
  - apply Z.ltb_lt in H. rewrite Z.max_r by lia. reflexivity.
  - apply Z.ltb_ge in H. rewrite Z.max_l by lia. reflexivity.
Qed.

(** The clamp when the elapsed count is nan. *)
Lemma clamp_nan_elapsed (t : number) :
  py_max (PyInt 0) (py_min (PyFloat S754_nan) t) = PyInt 0.
Proof.
  unfold py_min. rewrite nan_not_lt_r.
  unfold py_max. rewrite nan_not_lt_r. reflexivity.
Qed.

Lemma sub_days_class (a b : datetime) (n : number) :
  sub_days a b = Ok n -> (exists z, n = PyInt z) \/ n = PyFloat S754_nan.
Proof.
  unfold sub_days. destruct a as [x |]; [destruct b as [y |] |].
  - destruct (negb (same_awareness x y)); [discriminate |].
    destruct (negb (fits_timedelta (ns_of x - ns_of y))); [discriminate |].
    intros H. injection H as <-. left. eexists. reflexivity.
  - intros H. injection H as <-. right. reflexivity.
  - intros H. injection H as <-. right. reflexivity.
Qed.

Lemma sub_days_stamps (x y : Timestamp) (n : number) :
  sub_days (Stamp x) (Stamp y) = Ok n ->
  n = PyInt (days_between x y)
  /\ same_awareness x y = true
  /\ fits_timedelta (ns_of x - ns_of y) = true.
Proof.
  unfold sub_days.
  destruct (same_awareness x y); [| discriminate].
  destruct (fits_timedelta (ns_of x - ns_of y)); [| discriminate].
  simpl. intros H. injection H as <-. repeat split.
Qed.

Lemma sub_days_Raise_inv (a b : datetime) (x : exn) :
  sub_days a b = Raise x -> x = TypeError \/ x = OutOfBoundsDatetime.
Proof.
  unfold sub_days. destruct a as [t |]; [destruct b as [t' |] |]; try discriminate.
  destruct (negb (same_awareness t t')).
  - intros H. injection H as <-. left. reflexivity.
  - destruct (negb (fits_timedelta (ns_of t - ns_of t'))); [| discriminate].
    intros H. injection H as <-. right. reflexivity.
Qed.

Lemma day_counts_missing (now : Timestamp) (s e : option datetime) :
  s = None \/ e = None -> day_counts now s e = Ok (PyInt 0, PyInt 0).
Proof.
  unfold day_counts. intros [-> | ->]; [reflexivity |].
  destruct s; reflexivity.
Qed.

Lemma day_counts_Ok_inv (now : Timestamp) (s e : option datetime) (td de : number) :
  day_counts now s e = Ok (td, de) ->
  (exists s' e' k,
      s = Some s' /\ e = Some e'
      /\ sub_days e' s' = Ok td /\ sub_days (Stamp now) s' = Ok k
      /\ de = py_max (PyInt 0) (py_min k td))
  \/ ((s = None \/ e = None) /\ td = PyInt 0 /\ de = PyInt 0).
Proof.
  unfold day_counts. destruct s as [s' |]; [destruct e as [e' |] |].
  - intros H. apply bind_Ok_inv in H as (t & Ht & H).
    apply bind_Ok_inv in H as (k & Hk & H).
    injection H as <- <-. left. exists s', e', k. repeat split; assumption.
  - intros H. injection H as <- <-. right.
    split; [right; reflexivity | split; reflexivity].
  - intros H. injection H as <- <-. right.
    split; [left; reflexivity | split; reflexivity].
Qed.

(** Two Timestamps: both counts are integers, the elapsed one clamped. *)
Lemma day_counts_stamps (now s e : Timestamp) (td de : number) :
  day_counts now (Some (Stamp s)) (Some (Stamp e)) = Ok (td, de) ->
  td = PyInt (days_between e s)
  /\ de = PyInt (Z.max 0 (Z.min (days_between now s) (days_between e s))).
Proof.
  intros H. apply day_counts_Ok_inv in H
    as [(s' & e' & k & Hs & He & Ht & Hk & Hde) | ([Hn | Hn] & _)];
    try discriminate Hn.
  injection Hs as <-. injection He as <-.
  apply sub_days_stamps in Ht as (-> & _). apply sub_days_stamps in Hk as (-> & _).
  split; [reflexivity |]. rewrite Hde. apply clamp_ints.
Qed.

(** The total is an integer or nan, and nan exactly when a parsed date is
    [NaT]. *)
Lemma day_counts_total (now : Timestamp) (s e : option datetime) (td de : number) :
  day_counts now s e = Ok (td, de) ->
  (exists t, td = PyInt t)
  \/ (td = PyFloat S754_nan /\ (s = Some NaT \/ e = Some NaT)).
Proof.
  intros H. apply day_counts_Ok_inv in H
    as [(s' & e' & k & -> & -> & Ht & _) | (_ & -> & _)].
  - destruct e' as [y |]; [destruct s' as [x |] |].
    + apply sub_days_stamps in Ht as (-> & _). left. eexists. reflexivity.
    + injection Ht as <-. right. split; [reflexivity | left; reflexivity].
    + injection Ht as <-. right. split; [reflexivity | right; reflexivity].
  - left. eexists. reflexivity.
Qed.

(** The elapsed count is always an integer, never negative, at most a
    positive total and zero under a negative one. *)
Lemma day_counts_clamped (now : Timestamp) (s e : option datetime) (td de : number) :
  day_counts now s e = Ok (td, de) ->
  exists k, de = PyInt k /\ 0 <= k
            /\ forall t, td = PyInt t -> (0 < t -> k <= t) /\ (t < 0 -> k = 0).
Proof.
  intros H. apply day_counts_Ok_inv in H
    as [(s' & e' & k & _ & _ & Ht & Hk & ->) | (_ & -> & ->)].
  - apply sub_days_class in Ht as [(t & ->) | ->];
      apply sub_days_class in Hk as [(k' & ->) | ->].
    + rewrite clamp_ints. eexists. split; [reflexivity |].
      split; [lia |]. intros t' Ht'. injection Ht' as <-. lia.
    + rewrite clamp_nan_elapsed. exists 0. split; [reflexivity |].
      split; [lia |]. intros t' Ht'. lia.
    + rewrite clamp_nan_total. eexists. split; [reflexivity |].
      split; [lia |]. intros t' Ht'. discriminate Ht'.
    + rewrite clamp_nan_elapsed. exists 0. split; [reflexivity |].
      split; [lia |]. intros t' Ht'. discriminate Ht'.
  - exists 0. split; [reflexivity |]. split; [lia |]. intros t Ht. injection Ht as <-. lia.
Qed.

Lemma day_counts_Raise_inv (now : Timestamp) (s e : option datetime) (x : exn) :
  day_counts now s e = Raise x -> x = TypeError \/ x = OutOfBoundsDatetime.
Proof.
  unfold day_counts. destruct s as [s' |]; [destruct e as [e' |] |]; try discriminate.
  intros H. apply bind_Raise_inv in H as [H | (t & _ & H)].
  - eapply sub_days_Raise_inv, H.
  - apply bind_Raise_inv in H as [H | (k & _ & H)]; [| discriminate H].
    eapply sub_days_Raise_inv, H.
Qed.

(** ** The calculator in closed form *)

Lemma calculate_eq (now : Timestamp) (p : Projected) (td de : number) :
  day_counts now (start_date_parsed p) (end_date_parsed p) = Ok (td, de) ->
  let required_per_day :=
    if gt0 td then quotient (plots_targeted p) td else PyInt 0 in
  let actual_per_day :=
    if gt0 de then quotient (PyInt 0) de else PyInt 0 in
  let required_percentage :=
    if gt0 td then times100 (quotient de td) else PyInt 0 in
  let actual_percentage :=
    if gt0 (plots_targeted p)
    then times100 (quotient (PyInt 0) (plots_targeted p)) else PyInt 0 in
  calculate now p
  = Ok (mkProgress (PyInt 0) td de required_per_day actual_per_day
          required_percentage actual_percentage
          (number_sub actual_percentage required_percentage)
          (format_gap (number_sub actual_percentage required_percentage))).
Proof.
  intros Hdc. unfold calculate. rewrite Hdc. cbn [bind].
  destruct (gt0 td) eqn:Htd; destruct (gt0 de) eqn:Hde;
    destruct (gt0 (plots_targeted p)) eqn:Hp;
    repeat first
      [ rewrite (truediv_pos _ _ Htd)
      | rewrite (truediv_pos _ _ Hde)
      | rewrite (truediv_pos _ _ Hp) ];
    reflexivity.
Qed.

(** The calculator fails exactly when a date subtraction does. *)
Lemma calculate_raise (now : Timestamp) (p : Projected) (x : exn) :
  calculate now p = Raise x
  <-> day_counts now (start_date_parsed p) (end_date_parsed p) = Raise x.
Proof.
  destruct (day_counts now (start_date_parsed p) (end_date_parsed p))
    as [[td de] | y] eqn:Hdc.
  - rewrite (calculate_eq now p td de Hdc). split; discriminate.
  - unfold calculate. rewrite Hdc. cbn [bind].
    split; intros H; injection H as ->; reflexivity.
Qed.

Lemma calculate_Ok_inv (now : Timestamp) (p : Projected) (m : Progress) :
  calculate now p = Ok m ->
  day_counts now (start_date_parsed p) (end_date_parsed p)
  = Ok (total_days m, days_elapsed m).
Proof.
  destruct (day_counts now (start_date_parsed p) (end_date_parsed p))
    as [[td de] | y] eqn:Hdc.
  - rewrite (calculate_eq now p td de Hdc). intros H. injection H as <-. reflexivity.
  - unfold calculate. rewrite Hdc. discriminate.
Qed.

(** ** Stripping *)

Lemma lstrip_nil_iff (s : pystr) : lstrip s = [] <-> whitespace_only s.
Proof.
  unfold whitespace_only.
  induction s as [| c s IH]; simpl.
  - split; reflexivity.
  - destruct (isspace c); simpl.
    + exact IH.
    + split; discriminate.
Qed.

Lemma lstrip_head (s : pystr) (c : N) (r : pystr) :
  lstrip s = c :: r -> isspace c = false.
Proof.
  induction s as [| a s IH]; simpl.
  - discriminate.
  - destruct (isspace a) eqn:Ha.
    + exact IH.
    + intros H. injection H as <- _. exact Ha.
Qed.

Lemma whitespace_only_rev (s : pystr) : whitespace_only (rev s) <-> whitespace_only s.
Proof.
  unfold whitespace_only. rewrite !forallb_forall.
  split; intros H x Hx; apply H; [apply in_rev in Hx | apply -> in_rev in Hx];
    try exact Hx.
  rewrite rev_involutive in Hx. exact Hx.
Qed.

Lemma whitespace_only_lstrip (s : pystr) :
  whitespace_only (lstrip s) <-> whitespace_only s.
Proof.
  split; intros H.
  - apply lstrip_nil_iff.
    destruct (lstrip s) as [| c r] eqn:E; [reflexivity |].
    apply lstrip_head in E. unfold whitespace_only in H. simpl in H.
    rewrite E in H. discriminate H.
  - apply lstrip_nil_iff in H. rewrite H. reflexivity.
Qed.

Lemma strip_nil_iff (s : pystr) : strip s = [] <-> whitespace_only s.
Proof.
  unfold strip, rstrip.
  rewrite <- whitespace_only_lstrip, <- whitespace_only_rev, <- lstrip_nil_iff.
  split; intros H.
  - apply (f_equal (@rev N)) in H. rewrite rev_involutive in H. exact H.
  - rewrite H. reflexivity.
Qed.

Lemma pystr_eqb_nil (s : pystr) : pystr_eqb s [] = true <-> s = [].
Proof.
  unfold pystr_eqb. destruct (list_eq_dec N.eq_dec s []) as [E | E].
  - split; intros _; [exact E | reflexivity].
  - split; [discriminate | intros H; contradiction].
Qed.

Lemma skip_state_iff (st : value) :
  skip_state st = true <-> isna st = true \/ whitespace_only (str st).
Proof.
  unfold skip_state. rewrite orb_true_iff, pystr_eqb_nil, strip_nil_iff.
  reflexivity.
Qed.

(** ** The projector and the loop *)

Section PipelineFacts.

Context {pd : Pandas}.

Lemma project_skip (row : Series) (st : value) :
  lookup col_state row = Some st -> skip_state st = true ->
  project row = Ok None.
Proof.
  intros Hst Hskip. unfold project.
  rewrite (getitem_lookup _ _ _ Hst). cbn [bind]. rewrite Hskip. reflexivity.
Qed.

Lemma project_keep (row : Series) (st targeted start_cell end_cell : value) :
  lookup col_state row = Some st ->
  lookup col_targeted row = Some targeted ->
  lookup col_start row = Some start_cell ->
  lookup col_end row = Some end_cell ->
  skip_state st = false ->
  project row
  = Ok (Some (mkProjected st (coerce_plots_targeted targeted)
                start_cell end_cell
                (fst (parse_dates start_cell end_cell))
                (snd (parse_dates start_cell end_cell)))).
Proof.
  intros Hst Htg Hsd Hed Hskip. unfold project.
  rewrite (getitem_lookup _ _ _ Hst). cbn [bind]. rewrite Hskip. cbn [bind].
  rewrite (getitem_lookup _ _ _ Htg). cbn [bind].
  rewrite (getitem_lookup _ _ _ Hsd). cbn [bind].
  rewrite (getitem_lookup _ _ _ Hed). cbn [bind].
  destruct (parse_dates start_cell end_cell). reflexivity.
Qed.

Lemma getitem_Ok_inv (row : Series) (key : string) (v : value) :
  getitem row key = Ok v -> lookup key row = Some v.
Proof.
  unfold getitem. destruct (lookup key row); intros H;
    [injection H as -> | discriminate H]; reflexivity.
Qed.

Lemma project_Some_inv (row : Series) (p : Projected) :
  project row = Ok (Some p) ->
  exists st targeted start_cell end_cell,
    lookup col_state row = Some st
    /\ lookup col_targeted row = Some targeted
    /\ lookup col_start row = Some start_cell
    /\ lookup col_end row = Some end_cell
    /\ skip_state st = false
    /\ p = mkProjected st (coerce_plots_targeted targeted)
             start_cell end_cell
             (fst (parse_dates start_cell end_cell))
             (snd (parse_dates start_cell end_cell)).
Proof.
  unfold project. intros H.
  apply bind_Ok_inv in H as (st & Hst & H).
  destruct (skip_state st) eqn:Hskip; [discriminate H |].
  apply bind_Ok_inv in H as (st' & Hst' & H).
  apply bind_Ok_inv in H as (tg & Htg & H).
  apply bind_Ok_inv in H as (sd & Hsd & H).
  apply bind_Ok_inv in H as (ed & Hed & H).
  assert (st' = st) by congruence. subst st'.
  exists st, tg, sd, ed.
  repeat split; try (apply getitem_Ok_inv; assumption); try assumption.
  destruct (parse_dates sd ed). injection H as <-. reflexivity.
Qed.

Lemma project_None_inv (row : Series) :
  project row = Ok None ->
  exists st, lookup col_state row = Some st /\ skip_state st = true.
Proof.
  unfold project. intros H.
  apply bind_Ok_inv in H as (st & Hst & H).
  exists st. split; [apply getitem_Ok_inv; exact Hst |].
  destruct (skip_state st) eqn:Hskip; [reflexivity |].
  apply bind_Ok_inv in H as (st' & _ & H).
  apply bind_Ok_inv in H as (tg & _ & H).
  apply bind_Ok_inv in H as (sd & _ & H).
  apply bind_Ok_inv in H as (ed & _ & H).
  destruct (parse_dates sd ed). discriminate H.
Qed.

(** With its four columns a row is projected without an exception. *)
Lemma project_has_columns (row : Series) :
  has_columns row -> exists r, project row = Ok r.
Proof.
  intros (st & tg & sd & ed & Hst & Htg & Hsd & Hed).
  destruct (skip_state st) eqn:Hskip.
  - exists None. apply (project_skip _ _ Hst Hskip).
  - eexists. apply (project_keep _ _ _ _ _ Hst Htg Hsd Hed Hskip).
Qed.

Lemma process_row_Some_inv (now : Timestamp) (row out : Series) :
  process_row now row = Ok (Some out) ->
  exists p m,
    project row = Ok (Some p) /\ calculate now p = Ok m /\ out = sheet2_row p m.
Proof.
  unfold process_row. intros H.
  apply bind_Ok_inv in H as ([p |] & Hp & H); [| discriminate H].
  apply bind_Ok_inv in H as (m & Hm & H).
  injection H as <-. exists p, m. repeat split; assumption.
Qed.

Lemma process_row_keep (now : Timestamp) (row : Series) (p : Projected) :
  project row = Ok (Some p) ->
  process_row now row = (m <- calculate now p ;; Ok (Some (sheet2_row p m))).
Proof. intros Hp. unfold process_row. rewrite Hp. reflexivity. Qed.

(** A row leaves no record, silently, exactly when the projector skips it. *)
Lemma process_row_None_iff (now : Timestamp) (row : Series) :
  process_row now row = Ok None <-> project row = Ok None.
Proof.
  unfold process_row. destruct (project row) as [[p |] | x]; cbn [bind].
  - split; [| discriminate].
    destruct (calculate now p); cbn [bind]; discriminate.
  - split; reflexivity.
  - split; discriminate.
Qed.

(** What a row that is kept can raise: only what the date subtraction
    raises. *)
Lemma process_row_Raise_inv (now : Timestamp) (row : Series) (x : exn) :
  has_columns row -> process_row now row = Raise x ->
  x = TypeError \/ x = OutOfBoundsDatetime.
Proof.
  intros Hcols H. destruct (project_has_columns row Hcols) as (r & Hr).
  unfold process_row in H. rewrite Hr in H. cbn [bind] in H.
  destruct r as [p |]; [| discriminate H].
  apply bind_Raise_inv in H as [H | (m & _ & H)]; [| discriminate H].
  apply calculate_raise in H. eapply day_counts_Raise_inv, H.
Qed.

Lemma rows_loop_length (now : Timestamp) (rows data : list Series) :
  rows_loop now rows = Ok data -> (List.length data <= List.length rows)%nat.
Proof.
  revert data. induction rows as [| row rest IH]; simpl; intros data H.
  - injection H as <-. simpl. lia.
  - apply bind_Ok_inv in H as (r & _ & H).
    apply bind_Ok_inv in H as (tl & Htl & H).
    injection H as <-. specialize (IH _ Htl).
    destruct r; simpl; lia.
Qed.

Lemma rows_loop_In (now : Timestamp) (rows data : list Series) (out : Series) :
  rows_loop now rows = Ok data -> In out data ->
  exists row, In row rows /\ process_row now row = Ok (Some out).
Proof.
  revert data. induction rows as [| row rest IH]; simpl; intros data H Hin.
  - injection H as <-. contradiction.
  - apply bind_Ok_inv in H as (r & Hr & H).
    apply bind_Ok_inv in H as (tl & Htl & H).
    injection H as <-.
    destruct r as [o |].
    + destruct Hin as [<- | Hin].
      * exists row. split; [left; reflexivity | exact Hr].
      * destruct (IH _ Htl Hin) as (row' & Hin' & H').
        exists row'. split; [right; exact Hin' | exact H'].
    + destruct (IH _ Htl Hin) as (row' & Hin' & H').
      exists row'. split; [right; exact Hin' | exact H'].
Qed.

(** In a run that returns, every row was handled without an exception and
    every record a row yields is in the output. *)
Lemma rows_loop_complete (now : Timestamp) (rows data : list Series) :
  rows_loop now rows = Ok data ->
  forall row, In row rows ->
    exists r, process_row now row = Ok r
              /\ forall out, r = Some out -> In out data.
Proof.
  revert data. induction rows as [| row rest IH]; simpl; intros data H row' Hin.
  - contradiction.
  - apply bind_Ok_inv in H as (r & Hr & H).
    apply bind_Ok_inv in H as (tl & Htl & H).
    injection H as <-.
    destruct Hin as [<- | Hin].
    + exists r. split; [exact Hr |]. intros out ->. left. reflexivity.
    + destruct (IH _ Htl _ Hin) as (r' & Hr' & Hall).
      exists r'. split; [exact Hr' |]. intros out Hout.
      destruct r; [right |]; apply Hall, Hout.
Qed.

(** The loop returns as soon as no row raises. *)
Lemma rows_loop_total (now : Timestamp) (rows : list Series) :
  Forall (fun row => exists r, process_row now row = Ok r) rows ->
  exists data, rows_loop now rows = Ok data.
Proof.
  induction 1 as [| row rest (r & Hr) _ (tl & Htl)]; simpl.
  - exists []. reflexivity.
  - rewrite Hr, Htl. simpl. eexists. reflexivity.
Qed.

End PipelineFacts.

(** ** Date parsing under one handler *)

Section DateFacts.

Context {pd : Pandas}.

Lemma parse_date_missing (cell : value) :
  isna cell = true -> parse_date cell = Ok None.
Proof. unfold parse_date. intros ->. reflexivity. Qed.

Lemma parse_date_present (cell : value) :
  isna cell = false ->
  parse_date cell = (t <- to_datetime cell true ;; Ok (Some t)).
Proof. unfold parse_date. intros ->. reflexivity. Qed.

Lemma parse_dates_eq (start_cell end_cell : value) :
  parse_dates start_cell end_cell
  = match parse_date start_cell, parse_date end_cell with
    | Ok s, Ok e => (s, e)
    | _, _ => (None, None)
    end.
Proof.
  unfold parse_dates.
  destruct (parse_date start_cell) as [s | x]; [| reflexivity].
  destruct (parse_date end_cell) as [e | x]; reflexivity.
Qed.

Lemma parse_dates_both (start_cell end_cell : value) (s e : datetime) :
  isna start_cell = false -> isna end_cell = false ->
  to_datetime start_cell true = Ok s -> to_datetime end_cell true = Ok e ->
  parse_dates start_cell end_cell = (Some s, Some e).
Proof.
  intros Hs He Ps Pe.
  rewrite parse_dates_eq, (parse_date_present _ Hs), (parse_date_present _ He),
    Ps, Pe.
  reflexivity.
Qed.

Lemma parse_dates_missing (start_cell end_cell : value) :
  isna start_cell = true \/ isna end_cell = true ->
  fst (parse_dates start_cell end_cell) = None
  \/ snd (parse_dates start_cell end_cell) = None.
Proof.
  rewrite parse_dates_eq. intros [H | H]; rewrite (parse_date_missing _ H).
  - left. destruct (parse_date end_cell); reflexivity.
  - right. destruct (parse_date start_cell); reflexivity.
Qed.

(** A parsed date of a projected row comes from the parser, which read the
    cell as that very value. *)
Lemma parse_dates_Some_inv (start_cell end_cell : value) (d : datetime) :
  (fst (parse_dates start_cell end_cell) = Some d ->
   isna start_cell = false /\ to_datetime start_cell true = Ok d)
  /\ (snd (parse_dates start_cell end_cell) = Some d ->
      isna end_cell = false /\ to_datetime end_cell true = Ok d).
Proof.
  rewrite parse_dates_eq. unfold parse_date.
  destruct (isna start_cell); destruct (isna end_cell); cbn [negb];
    try destruct (to_datetime start_cell true) as [s | x]; cbn [bind];
    try destruct (to_datetime end_cell true) as [e | y]; cbn [bind fst snd];
    split; intros H; try discriminate H; injection H as ->; split; reflexivity.
Qed.

End DateFacts.

(** ** Inverting the calculator *)

(** From a returned record to the day counts and the closed form. *)
Ltac invert_calculate Hm td de Hdc :=
  match type of Hm with
  | calculate ?now ?p = Ok ?m =>
      let x := fresh "x" in
      destruct (day_counts now (start_date_parsed p) (end_date_parsed p))
        as [[td de] | x] eqn:Hdc;
      [ rewrite (calculate_eq now p td de Hdc) in Hm; injection Hm as <-
      | unfold calculate in Hm; rewrite Hdc in Hm; discriminate Hm ]
  end.

(** Next to another parsed date, a parsed [NaT] makes the total nan. *)
Lemma day_counts_nat (now : Timestamp) (s e : datetime) (td de : number) :
  day_counts now (Some s) (Some e) = Ok (td, de) ->
  s = NaT \/ e = NaT ->
  td = PyFloat S754_nan.
Proof.
  intros H Hnat. apply day_counts_Ok_inv in H
    as [(s' & e' & k & Hs & He & Ht & _) | ([Hn | Hn] & _)];
    try discriminate Hn.
  injection Hs as <-. injection He as <-.
  destruct Hnat as [-> | ->].
  - destruct e; injection Ht as <-; reflexivity.
  - injection Ht as <-. reflexivity.
Qed.

(** A start date next to an end date read as [NaT]: the elapsed count is
    the count from the start date to the clock, kept from going below
    zero. *)
Lemma day_counts_nat_end (now s : Timestamp) (td de : number) :
  day_counts now (Some (Stamp s)) (Some NaT) = Ok (td, de) ->
  td = PyFloat S754_nan /\ de = PyInt (Z.max 0 (days_between now s)).
Proof.
  intros H. apply day_counts_Ok_inv in H
    as [(s' & e' & k & Hs & He & Ht & Hk & Hde) | ([Hn | Hn] & _)];
    try discriminate Hn.
  injection Hs as <-. injection He as <-.
  injection Ht as <-. apply sub_days_stamps in Hk as (-> & _).
  split; [reflexivity |]. rewrite Hde. apply clamp_nan_total.
Qed.

(** ** The claims *)

(** C1.  In every emitted record the days elapsed are an integer; under a
    positive total they lie between zero and the total; and when a parsed
    date is [None] (as it is for a missing cell, and for both dates when
    the parser raises) the total and the elapsed days are both zero.  A
    date the parser reads as [NaT] is not [None]: next to another parsed
    date it takes the dated branch, the total is nan, and after a start
    date the elapsed days are the days from that date to the clock - the
    case in which the code departs from the claim. *)
Theorem days_elapsed_within_total {pd : Pandas} (now : Timestamp)
  (rows data : list Series) :
  generate_sheet2_data now (Some rows) = Ok (Some data) ->
  Forall
    (fun out : Series =>
       exists (row : Series) (p : Projected) (m : Progress) (de : Z),
         In row rows
         /\ project row = Ok (Some p)
         /\ calculate now p = Ok m
         /\ out = sheet2_row p m
         /\ lookup "Days Elapsed" out = Some (VNum (PyInt de))
         /\ (forall td : Z,
               lookup "Total Days" out = Some (VNum (PyInt td)) ->
               0 < td -> 0 <= de <= td)
         /\ (start_date_parsed p = None \/ end_date_parsed p = None ->
             lookup "Total Days" out = Some (VNum (PyInt 0)) /\ de = 0)
         /\ (isna (start_date p) = true \/ isna (end_date p) = true ->
             lookup "Total Days" out = Some (VNum (PyInt 0)) /\ de = 0)
         /\ (forall s e : datetime,
               start_date_parsed p = Some s -> end_date_parsed p = Some e ->
               s = NaT \/ e = NaT ->
               lookup "Total Days" out = Some (VNum (PyFloat S754_nan)))
         /\ (forall s : Timestamp,
               start_date_parsed p = Some (Stamp s) ->
               end_date_parsed p = Some NaT ->
               de = Z.max 0 (days_between now s)))
    data.
Proof.
  intros Hgen. simpl in Hgen.
  apply bind_Ok_inv in Hgen as (data' & Hloop & Hdata).
  injection Hdata as <-.
  apply Forall_forall. intros out Hin.
  destruct (rows_loop_In _ _ _ _ Hloop Hin) as (row & Hrow & Hout).
  apply process_row_Some_inv in Hout as (p & m & Hp & Hm & ->).
  pose proof Hm as Hm'.
  invert_calculate Hm' td de Hdc.
  destruct (day_counts_clamped _ _ _ _ _ Hdc) as (k & -> & H0 & Hle).
  exists row, p. eexists. exists k.
  split; [exact Hrow |]. split; [exact Hp |]. split; [exact Hm |].
  split; [reflexivity |].
  assert (Hmiss : start_date_parsed p = None \/ end_date_parsed p = None ->
                  td = PyInt 0 /\ k = 0).
  { intros Hnone. rewrite (day_counts_missing now _ _ Hnone) in Hdc.
    injection Hdc as <- <-. split; reflexivity. }
  cbn [sheet2_row lookup String.eqb Ascii.eqb Bool.eqb total_days days_elapsed].
  split; [reflexivity |].
  split.
  { intros t Ht Hpos. injection Ht as ->.
    split; [exact H0 | exact (proj1 (Hle t eq_refl) Hpos)]. }
  split.
  { intros Hnone. destruct (Hmiss Hnone) as (-> & ->). split; reflexivity. }
  split.
  { intros Hna.
    assert (Hnone : start_date_parsed p = None \/ end_date_parsed p = None).
    { apply project_Some_inv in Hp
        as (st & tg & sd & ed & _ & _ & _ & _ & _ & ->).
      cbn [start_date_parsed end_date_parsed start_date end_date] in *.
      apply parse_dates_missing. exact Hna. }
    destruct (Hmiss Hnone) as (-> & ->). split; reflexivity. }
  split.
  { intros s e Hs He Hnat. rewrite Hs, He in Hdc.
    rewrite (day_counts_nat _ _ _ _ _ Hdc Hnat). reflexivity. }
  intros s Hs He. rewrite Hs, He in Hdc.
  apply day_counts_nat_end in Hdc as (_ & Hk). injection Hk as ->. reflexivity.
Qed.

Lemma days_elapsed_within_total_witness :
  @generate_sheet2_data Reference.pandas now_2026_01_13
    (Some [bihar; missing_end; nat_end])
  = Ok (Some (run [bihar; missing_end; nat_end]))
  /\ Forall
       (fun out : Series =>
          exists (row : Series) (p : Projected) (m : Progress) (de : Z),
            In row [bihar; missing_end; nat_end]
            /\ @project Reference.pandas row = Ok (Some p)
            /\ calculate now_2026_01_13 p = Ok m
            /\ out = sheet2_row p m
            /\ lookup "Days Elapsed" out = Some (VNum (PyInt de))
            /\ (forall td : Z,
                  lookup "Total Days" out = Some (VNum (PyInt td)) ->
                  0 < td -> 0 <= de <= td)
            /\ (start_date_parsed p = None \/ end_date_parsed p = None ->
                lookup "Total Days" out = Some (VNum (PyInt 0)) /\ de = 0)
            /\ (isna (start_date p) = true \/ isna (end_date p) = true ->
                lookup "Total Days" out = Some (VNum (PyInt 0)) /\ de = 0)
            /\ (forall s e : datetime,
                  start_date_parsed p = Some s -> end_date_parsed p = Some e ->
                  s = NaT \/ e = NaT ->
                  lookup "Total Days" out = Some (VNum (PyFloat S754_nan)))
            /\ (forall s : Timestamp,
                  start_date_parsed p = Some (Stamp s) ->
                  end_date_parsed p = Some NaT ->
                  de = Z.max 0 (days_between now_2026_01_13 s)))
       (run [bihar; missing_end; nat_end])
  /\ List.map (fun out => (lookup "Total Days" out, lookup "Days Elapsed" out))
       (run [bihar; missing_end; nat_end])
     = [ (Some (VNum (PyInt 30)), Some (VNum (PyInt 12)));
         (Some (VNum (PyInt 0)), Some (VNum (PyInt 0)));
         (Some (VNum (PyFloat S754_nan)), Some (VNum (PyInt 12))) ].
Proof.
  assert (H1 : @generate_sheet2_data Reference.pandas now_2026_01_13
                 (Some [bihar; missing_end; nat_end])
               = Ok (Some (run [bihar; missing_end; nat_end])))
    by (vm_compute; reflexivity).
  split; [exact H1 |].
  split; [| vm_compute; reflexivity].
  exact (@days_elapsed_within_total Reference.pandas now_2026_01_13
           [bihar; missing_end; nat_end]
           (run [bihar; missing_end; nat_end]) H1).
Defined.

(** The end date written [NaT]: the record has a total of nan, which the
    serialiser writes as null, and twelve days elapsed, where the claim
    has zero for both. *)
Example nat_end_days :
  lookup "Total Days" (first_record (run [nat_end]))
  = Some (VNum (PyFloat S754_nan))
  /\ option_map convert_types (lookup "Total Days" (first_record (run [nat_end])))
     = Some JNull
  /\ lookup "Days Elapsed" (first_record (run [nat_end])) = Some (VNum (PyInt 12))
  /\ (exists p : Projected,
        @project Reference.pandas nat_end = Ok (Some p)
        /\ end_date_parsed p = Some NaT).
Proof.
  split; [vm_compute; reflexivity |].
  split; [vm_compute; reflexivity |].
  split; [vm_compute; reflexivity |].
  eexists. split; [lazy; reflexivity | reflexivity].
Qed.

(** C2, as the claim states it, fails: the calculator does fail on some
    projected rows.  The two date subtractions stand before the divisions
    and outside every [try]; a start date more than 292 years before the
    end date makes the first one raise, and a start date with a UTC offset
    cannot be subtracted from the clock. *)
Lemma calculate_raises_on_dates :
  (exists p : Projected,
     @project Reference.pandas far_start = Ok (Some p)
     /\ calculate now_2026_01_13 p = Raise OutOfBoundsDatetime
     /\ @generate_sheet2_data Reference.pandas now_2026_01_13 (Some [far_start])
        = Raise OutOfBoundsDatetime)
  /\ (exists p : Projected,
        @project Reference.pandas aware_start = Ok (Some p)
        /\ calculate now_2026_01_13 p = Raise TypeError
        /\ @generate_sheet2_data Reference.pandas now_2026_01_13
             (Some [aware_start])
           = Raise TypeError).
Proof.
  split; eexists; (split; [lazy; reflexivity |]); split; vm_compute; reflexivity.
Qed.

(** C2, amended.  No division by zero is reached on any projected row: each
    division sits behind its guard, the calculator fails exactly when one
    of the two date subtractions does, and it returns a record as soon as
    they give the day counts.  In every record it returns, a zero total
    makes the required rate and the required percentage zero, a zero
    elapsed count makes the actual rate zero, and a zero target makes the
    actual percentage zero - in the record and in the rounded fields the
    output row stores. *)
Theorem divisions_are_guarded (now : Timestamp) (p : Projected) :
  calculate now p <> Raise ZeroDivisionError
  /\ (forall x : exn,
        calculate now p = Raise x
        <-> day_counts now (start_date_parsed p) (end_date_parsed p) = Raise x)
  /\ (forall td de : number,
        day_counts now (start_date_parsed p) (end_date_parsed p) = Ok (td, de) ->
        exists m : Progress,
          calculate now p = Ok m /\ total_days m = td /\ days_elapsed m = de)
  /\ (forall m : Progress,
        calculate now p = Ok m ->
        (is_zero (total_days m) = true ->
         required_per_day m = PyInt 0 /\ required_percentage m = PyInt 0
         /\ lookup "Required /day" (sheet2_row p m) = Some (VNum (PyInt 0))
         /\ lookup "Required % (Time elapsed)" (sheet2_row p m)
            = Some (VNum (PyInt 0)))
        /\ (is_zero (days_elapsed m) = true ->
            actual_per_day m = PyInt 0
            /\ lookup "Actual /day" (sheet2_row p m) = Some (VNum (PyInt 0)))
        /\ (is_zero (plots_targeted p) = true ->
            actual_percentage m = PyInt 0
            /\ lookup "Actual % (Survey done)" (sheet2_row p m)
               = Some (VNum (PyInt 0)))).
Proof.
  split; [| split; [| split]].
  - intros H. apply calculate_raise in H.
    apply day_counts_Raise_inv in H as [H | H]; discriminate H.
  - intros x. apply calculate_raise.
  - intros td de Hdc. eexists.
    split; [apply (calculate_eq now p td de Hdc) |]. split; reflexivity.
  - intros m Hm. invert_calculate Hm td de Hdc.
    cbn [total_days days_elapsed required_per_day actual_per_day
         required_percentage actual_percentage].
    split; [| split].
    + intros Hz. unfold sheet2_row.
      cbn [required_per_day required_percentage].
      rewrite (zero_not_gt0 _ Hz). repeat split; reflexivity.
    + intros Hz. unfold sheet2_row. cbn [actual_per_day].
      rewrite (zero_not_gt0 _ Hz). split; reflexivity.
    + intros Hz. unfold sheet2_row. cbn [actual_percentage].
      rewrite (zero_not_gt0 _ Hz). split; reflexivity.
Qed.

(** C10. In every emitted record the days elapsed are an integer that is
    never negative, and a negative total always comes with zero days
    elapsed.  The total is an integer, or nan for a row one of whose dates
    the parser read as [NaT]. *)
Theorem days_elapsed_nonnegative {pd : Pandas} (now : Timestamp)
  (rows data : list Series) (out : Series) :
  generate_sheet2_data now (Some rows) = Ok (Some data) ->
  In out data ->
  exists de : Z,
    lookup "Days Elapsed" out = Some (VNum (PyInt de))
    /\ lookup "days" out = Some (VNum (PyInt de))
    /\ 0 <= de
    /\ ((exists td : Z,
           lookup "Total Days" out = Some (VNum (PyInt td))
           /\ (td < 0 -> de = 0))
        \/ (lookup "Total Days" out = Some (VNum (PyFloat S754_nan))
            /\ exists (row : Series) (p : Projected),
                 In row rows /\ project row = Ok (Some p)
                 /\ (start_date_parsed p = Some NaT
                     \/ end_date_parsed p = Some NaT))).
Proof.
  intros Hgen Hin. simpl in Hgen.
  apply bind_Ok_inv in Hgen as (data' & Hloop & Hdata).
  injection Hdata as <-.
  destruct (rows_loop_In _ _ _ _ Hloop Hin) as (row & Hrow & Hout).
  apply process_row_Some_inv in Hout as (p & m & Hp & Hm & ->).
  invert_calculate Hm td de Hdc.
  destruct (day_counts_clamped _ _ _ _ _ Hdc) as (k & -> & H0 & Hle).
  exists k.
  cbn [sheet2_row lookup String.eqb Ascii.eqb Bool.eqb total_days days_elapsed].
  split; [reflexivity |]. split; [reflexivity |]. split; [exact H0 |].
  destruct (day_counts_total _ _ _ _ _ Hdc) as [(t & ->) | (-> & Hnat)].
  - left. exists t. split; [reflexivity |]. apply (Hle t eq_refl).
  - right. split; [reflexivity |]. exists row, p.
    split; [exact Hrow |]. split; [exact Hp | exact Hnat].
Qed.

Lemma days_elapsed_nonnegative_witness :
  (@generate_sheet2_data Reference.pandas now_2026_01_13 (Some [reversed])
   = Ok (Some (run [reversed]))
   /\ In (first_record (run [reversed])) (run [reversed]))
  /\ exists de : Z,
       lookup "Days Elapsed" (first_record (run [reversed]))
       = Some (VNum (PyInt de))
       /\ lookup "days" (first_record (run [reversed]))
          = Some (VNum (PyInt de))
       /\ 0 <= de
       /\ ((exists td : Z,
              lookup "Total Days" (first_record (run [reversed]))
              = Some (VNum (PyInt td))
              /\ (td < 0 -> de = 0))
           \/ (lookup "Total Days" (first_record (run [reversed]))
               = Some (VNum (PyFloat S754_nan))
               /\ exists (row : Series) (p : Projected),
                    In row [reversed]
                    /\ @project Reference.pandas row = Ok (Some p)
                    /\ (start_date_parsed p = Some NaT
                        \/ end_date_parsed p = Some NaT))).
Proof.
  assert (H1 : @generate_sheet2_data Reference.pandas now_2026_01_13
                 (Some [reversed])
               = Ok (Some (run [reversed])))
    by (vm_compute; reflexivity).
  assert (H2 : In (first_record (run [reversed])) (run [reversed]))
    by (vm_compute; left; reflexivity).
  split; [split; assumption |].
  exact (@days_elapsed_nonnegative Reference.pandas now_2026_01_13
           [reversed] (run [reversed]) (first_record (run [reversed])) H1 H2).
Defined.

(** The reversed row has a total of minus thirty days and no day elapsed. *)
Example reversed_days :
  lookup "Total Days" (first_record (run [reversed])) = Some (VNum (PyInt (-30)))
  /\ lookup "Days Elapsed" (first_record (run [reversed])) = Some (VNum (PyInt 0)).
Proof. split; vm_compute; reflexivity. Qed.

(** C9. For a row both of whose dates parse, the total is the day count of
    the end date minus the start date, whatever its sign: the record stores
    it, and the serialiser writes it, as that integer. *)
Theorem total_days_unvalidated {pd : Pandas} (now : Timestamp)
  (row out : Series) (start_cell end_cell : value) (s e : Timestamp) :
  process_row now row = Ok (Some out) ->
  lookup col_start row = Some start_cell ->
  lookup col_end row = Some end_cell ->
  isna start_cell = false -> isna end_cell = false ->
  to_datetime start_cell true = Ok (Stamp s) ->
  to_datetime end_cell true = Ok (Stamp e) ->
  lookup "Total Days" out = Some (VNum (PyInt (days_between e s)))
  /\ option_map convert_types (lookup "Total Days" out)
     = Some (JInt (days_between e s)).
Proof.
  intros Hout Hsd Hed Ns Ne Ps Pe.
  apply process_row_Some_inv in Hout as (p & m & Hp & Hm & ->).
  apply project_Some_inv in Hp
    as (st & tg & sd & ed & _ & _ & Hsd' & Hed' & _ & ->).
  assert (sd = start_cell) by congruence.
  assert (ed = end_cell) by congruence. subst sd ed.
  apply calculate_Ok_inv in Hm.
  cbn [start_date_parsed end_date_parsed] in Hm.
  rewrite (parse_dates_both _ _ _ _ Ns Ne Ps Pe) in Hm. cbn [fst snd] in Hm.
  apply day_counts_stamps in Hm as (Htd & _).
  cbn [sheet2_row lookup String.eqb Ascii.eqb Bool.eqb option_map].
  rewrite Htd. split; reflexivity.
Qed.

Lemma total_days_unvalidated_witness :
  lookup "Total Days" (first_record (run [reversed]))
  = Some (VNum (PyInt (days_between (Reference.midnight 2026 1 1)
                                    (Reference.midnight 2026 1 31))))
  /\ option_map convert_types (lookup "Total Days" (first_record (run [reversed])))
     = Some (JInt (days_between (Reference.midnight 2026 1 1)
                                (Reference.midnight 2026 1 31))).
Proof.
  apply (@total_days_unvalidated Reference.pandas now_2026_01_13 reversed
           (first_record (run [reversed]))
           (VStr (u "31/01/2026")) (VStr (u "01/01/2026"))).
  - vm_compute. reflexivity.
  - reflexivity.
  - reflexivity.
  - reflexivity.
  - reflexivity.
  - vm_compute. reflexivity.
  - vm_compute. reflexivity.
Defined.

(** C7. The row [{State: "Bihar", Targeted: "1,200", Start: "01/01/2026",
    End: "31/01/2026"}], evaluated on 2026-01-13, gives a total of 30 days,
    12 days elapsed, a required rate of 40.0 a day, a required percentage
    of 40.0, an actual percentage of 0.0, a gap of -40.0 and the label made
    of the negative glyph followed by "-40.0%"; the stored, rounded fields
    carry the same values. *)
Theorem bihar_scenario :
  exists (p : Projected) (m : Progress),
    @project Reference.pandas bihar = Ok (Some p)
    /\ calculate now_2026_01_13 p = Ok m
    /\ @generate_sheet2_data Reference.pandas now_2026_01_13 (Some [bihar])
       = Ok (Some [sheet2_row p m])
    /\ total_days m = PyInt 30
    /\ days_elapsed m = PyInt 12
    /\ required_per_day m = NpFloat64 (float_of_int 40)
    /\ required_percentage m = PyFloat (float_of_int 40)
    /\ actual_percentage m = NpFloat64 fzero
    /\ gap m = NpFloat64 (float_of_int (-40))
    /\ gap_formatted m = negative_glyph ++ u "-40.0%"
    /\ lookup "Total Days" (sheet2_row p m) = Some (VNum (PyInt 30))
    /\ lookup "Days Elapsed" (sheet2_row p m) = Some (VNum (PyInt 12))
    /\ lookup "Required /day" (sheet2_row p m)
       = Some (VNum (NpFloat64 (float_of_int 40)))
    /\ lookup "Required % (Time elapsed)" (sheet2_row p m)
       = Some (VNum (PyFloat (float_of_int 40)))
    /\ lookup "Actual % (Survey done)" (sheet2_row p m)
       = Some (VNum (NpFloat64 fzero))
    /\ lookup "Gap" (sheet2_row p m) = Some (VStr (negative_glyph ++ u "-40.0%"))
    /\ repr_float (float_of_int 40) = u "40.0"
    /\ repr_float (float_of_int (-40)) = u "-40.0"
    /\ repr_float fzero = u "0.0".
Proof.
  eexists. eexists.
  split; [lazy; reflexivity |].
  split; [lazy; reflexivity |].
  repeat split; vm_compute; reflexivity.
Qed.

(** C8, as the claim states it, fails on the positive label: the source
    writes a space between the glyph and the plus sign.  The row with a
    missing end date has a gap of 0.0, and its label is the glyph, a space
    and "+0.0%", which is not the glyph followed by "+0.0%". *)
Lemma positive_label_has_space :
  exists (p : Projected) (m : Progress),
    @project Reference.pandas missing_end = Ok (Some p)
    /\ calculate now_2026_01_13 p = Ok m
    /\ ge0 (gap m) = true
    /\ gap_formatted m = positive_glyph ++ u " +0.0%"
    /\ gap_formatted m <> positive_glyph ++ u "+" ++ format_1f (gap m) ++ u "%".
Proof.
  eexists. eexists.
  split; [lazy; reflexivity |].
  split; [lazy; reflexivity |].
  split; [vm_compute; reflexivity |].
  split; [vm_compute; reflexivity |].
  vm_compute. discriminate.
Qed.

(** C8, amended.  In every record the calculator returns, the gap is the
    actual percentage minus the required percentage, both unrounded.  The
    label is the positive glyph, a space, a plus sign, the gap to one
    decimal and a percent sign when the gap is at least zero; it is the
    negative glyph, the gap to one decimal and a percent sign when the gap
    is below zero.  The output row stores the four rates and percentages
    rounded to one decimal by [round(., 1)], and of the gap only the label.
    The rounding is that of the value's class: an int stays as it is, a
    float is rounded correctly, a numpy.float64 - the class of the required
    rate of a target read from text - is scaled by ten, rounded to the
    nearest integer and scaled back.  So the target of 7 plots over twenty
    days, 0.35 a day, is stored as 0.4, where the float 0.35 rounds to 0.3;
    and the plan of thirty-seven days, twelve of them elapsed, has the
    unrounded gap -32.432432432432435, the stored percentage 32.4 and the
    label "-32.4%". *)
Theorem gap_and_label :
  (forall (now : Timestamp) (p : Projected) (m : Progress),
     calculate now p = Ok m ->
     gap m = number_sub (actual_percentage m) (required_percentage m)
     /\ (ge0 (gap m) = true ->
         gap_formatted m
         = positive_glyph ++ u " +" ++ format_1f (gap m) ++ u "%")
     /\ (lt0 (gap m) = true ->
         gap_formatted m = negative_glyph ++ format_1f (gap m) ++ u "%")
     /\ lookup "Required /day" (sheet2_row p m)
        = Some (VNum (round1 (required_per_day m)))
     /\ lookup "Actual /day" (sheet2_row p m)
        = Some (VNum (round1 (actual_per_day m)))
     /\ lookup "Required % (Time elapsed)" (sheet2_row p m)
        = Some (VNum (round1 (required_percentage m)))
     /\ lookup "Actual % (Survey done)" (sheet2_row p m)
        = Some (VNum (round1 (actual_percentage m)))
     /\ lookup "Gap" (sheet2_row p m) = Some (VStr (gap_formatted m)))
  /\ (forall z : Z, round1 (PyInt z) = PyInt z)
  /\ (forall f : float,
        round1 (NpFloat64 f)
        = NpFloat64 (fdiv (rint (fmul f (float_of_int 10))) (float_of_int 10)))
  /\ round1 (NpFloat64 (int_truediv 35 100)) = NpFloat64 (int_truediv 4 10)
  /\ round1 (PyFloat (int_truediv 35 100)) = PyFloat (int_truediv 3 10)
  /\ (exists (p : Projected) (m : Progress),
        @project Reference.pandas seven_plots = Ok (Some p)
        /\ calculate now_2026_01_13 p = Ok m
        /\ required_per_day m = NpFloat64 (int_truediv 35 100)
        /\ lookup "Required /day" (sheet2_row p m)
           = Some (VNum (NpFloat64 (int_truediv 4 10)))
        /\ repr_float (int_truediv 4 10) = u "0.4")
  /\ (exists (p : Projected) (m : Progress),
        @project Reference.pandas long_plan = Ok (Some p)
        /\ calculate now_2026_01_13 p = Ok m
        /\ required_percentage m
           = PyFloat (fmul (int_truediv 12 37) (float_of_int 100))
        /\ gap m = NpFloat64 (SFopp (fmul (int_truediv 12 37) (float_of_int 100)))
        /\ repr_float (fmul (int_truediv 12 37) (float_of_int 100))
           = u "32.432432432432435"
        /\ lookup "Required % (Time elapsed)" (sheet2_row p m)
           = Some (VNum (PyFloat (int_truediv 324 10)))
        /\ lookup "Required /day" (sheet2_row p m)
           = Some (VNum (NpFloat64 (int_truediv 324 10)))
        /\ repr_float (int_truediv 324 10) = u "32.4"
        /\ lookup "Gap" (sheet2_row p m)
           = Some (VStr (negative_glyph ++ u "-32.4%"))).
Proof.
  split.
  { intros now p m Hm. invert_calculate Hm td de Hdc.
    cbn [gap gap_formatted actual_percentage required_percentage
         required_per_day actual_per_day].
    split; [reflexivity |].
    split; [| split].
    - intros Hge. unfold format_gap. rewrite Hge. reflexivity.
    - intros Hlt. unfold format_gap. rewrite (lt0_not_ge0 _ Hlt). reflexivity.
    - repeat split; reflexivity. }
  split; [intros z; reflexivity |].
  split; [intros f; reflexivity |].
  split; [vm_compute; reflexivity |].
  split; [vm_compute; reflexivity |].
  split.
  - eexists. eexists.
    split; [lazy; reflexivity |]. split; [lazy; reflexivity |].
    repeat split; vm_compute; reflexivity.
  - eexists. eexists.
    split; [lazy; reflexivity |]. split; [lazy; reflexivity |].
    repeat split; vm_compute; reflexivity.
Qed.

(** C3.  What [convert_types] does with each class of value.  A missing
    value becomes null, a Timestamp the text of [strftime], an int an
    integer, a float (a numpy.float64 is one) a float, and text stays text.
    A numpy.int64, the class of the target count that [pd.to_numeric] reads
    from integer text, is no instance of [int] nor of [pd.Int64Dtype]: it
    falls through to [str] and is written as text, as the target count 1200
    of the scenario row is. *)
Theorem convert_types_by_class :
  (forall v : value, isna v = true -> convert_types v = JNull)
  /\ (forall t : Timestamp,
        convert_types (VTimestamp t)
        = JString (pad 4 (year t) ++ u "-" ++ pad 2 (month t) ++ u "-"
                   ++ pad 2 (day t) ++ u " " ++ pad 2 (hour t) ++ u ":"
                   ++ pad 2 (minute t) ++ u ":" ++ pad 2 (second t)))
  /\ (forall z : Z, convert_types (VNum (PyInt z)) = JInt z)
  /\ (forall f : float,
        number_isna (PyFloat f) = false ->
        convert_types (VNum (PyFloat f)) = JFloat f)
  /\ (forall f : float,
        number_isna (NpFloat64 f) = false ->
        convert_types (VNum (NpFloat64 f)) = JFloat f)
  /\ (forall s : pystr, convert_types (VStr s) = JString s)
  /\ (forall z : Z, convert_types (VNum (NpInt64 z)) = JString (str_int z))
  /\ lookup "b" (first_record (run [bihar])) = Some (VNum (NpInt64 1200))
  /\ option_map convert_types (lookup "b" (first_record (run [bihar])))
     = Some (JString (u "1200")).
Proof.
  split; [intros v Hv; unfold convert_types; rewrite Hv; reflexivity |].
  split; [intros t; reflexivity |].
  split; [intros z; reflexivity |].
  split; [intros f Hf; destruct f; try discriminate Hf; reflexivity |].
  split; [intros f Hf; destruct f; try discriminate Hf; reflexivity |].
  split; [intros s; reflexivity |].
  split; [intros z; reflexivity |].
  split; vm_compute; reflexivity.
Qed.

(** C4, as the claim states it, fails for a value that cannot be parsed:
    both dates are parsed inside one [try] block whose handler resets both.
    The start date "01/01/2026" parses on its own, yet next to the end date
    "soon" the row has no start date either; so the result for the start
    cell is not a function of the start cell alone. *)
Lemma unparseable_end_discards_start :
  @parse_date Reference.pandas (VStr (u "01/01/2026"))
  = Ok (Some (Stamp (Reference.midnight 2026 1 1)))
  /\ @parse_dates Reference.pandas (VStr (u "01/01/2026")) (VStr (u "soon"))
     = (None, None)
  /\ (exists p : Projected,
        @project Reference.pandas bad_end = Ok (Some p)
        /\ start_date_parsed p = None /\ end_date_parsed p = None)
  /\ ~ (forall start_cell end_cell : value,
          fst (@parse_dates Reference.pandas start_cell end_cell)
          = try_except (@parse_date Reference.pandas start_cell) None).
Proof.
  split; [vm_compute; reflexivity |].
  split; [vm_compute; reflexivity |].
  split.
  - eexists. split; [lazy; reflexivity |]. split; reflexivity.
  - intros H.
    specialize (H (VStr (u "01/01/2026")) (VStr (u "soon"))).
    vm_compute in H. discriminate H.
Qed.

(** C4, amended.  The date coercion of a row that is not skipped raises no
    error and does not drop the row: the row is projected, with the parsed
    dates of its two cells, and goes on to the calculator.  Each date cell
    is read day first.  A missing cell gives no date for its own field and
    leaves the other field to its own parse; a cell the parser raises on
    gives no date for both fields; two cells the parser reads give what it
    read for each, a Timestamp or [NaT]. *)
Theorem dates_share_one_handler {pd : Pandas} (row : Series)
  (st targeted start_cell end_cell : value) :
  lookup col_state row = Some st ->
  lookup col_targeted row = Some targeted ->
  lookup col_start row = Some start_cell ->
  lookup col_end row = Some end_cell ->
  skip_state st = false ->
  (exists p : Projected,
     project row = Ok (Some p)
     /\ (start_date_parsed p, end_date_parsed p)
        = parse_dates start_cell end_cell
     /\ forall now : Timestamp,
          process_row now row
          = (m <- calculate now p ;; Ok (Some (sheet2_row p m))))
  /\ (forall now : Timestamp, process_row now row <> Ok None)
  /\ (forall cell : value,
        parse_date cell
        = if isna cell then Ok None
          else t <- to_datetime cell true ;; Ok (Some t))
  /\ (forall sd ed : value,
        parse_dates sd ed
        = match parse_date sd, parse_date ed with
          | Ok s, Ok e => (s, e)
          | _, _ => (None, None)
          end)
  /\ (forall sd ed : value,
        isna sd = true ->
        parse_dates sd ed = (None, try_except (parse_date ed) None))
  /\ (forall sd ed : value,
        isna ed = true ->
        parse_dates sd ed = (try_except (parse_date sd) None, None))
  /\ (forall sd ed : value,
        (exists x, parse_date sd = Raise x) \/ (exists x, parse_date ed = Raise x) ->
        parse_dates sd ed = (None, None))
  /\ (forall (sd ed : value) (s e : datetime),
        isna sd = false -> isna ed = false ->
        to_datetime sd true = Ok s -> to_datetime ed true = Ok e ->
        parse_dates sd ed = (Some s, Some e)).
Proof.
  intros Hst Htg Hsd Hed Hskip.
  pose proof (project_keep _ _ _ _ _ Hst Htg Hsd Hed Hskip) as Hp.
  split.
  { eexists. split; [exact Hp |].
    cbn [start_date_parsed end_date_parsed].
    split; [destruct (parse_dates start_cell end_cell); reflexivity |].
    intros now. apply (process_row_keep now row _ Hp). }
  split.
  { intros now H. apply process_row_None_iff in H. congruence. }
  split; [intros cell; unfold parse_date; destruct (isna cell); reflexivity |].
  split; [exact parse_dates_eq |].
  split; [| split; [| split]].
  - intros sd ed Hna. rewrite parse_dates_eq, (parse_date_missing _ Hna).
    destruct (parse_date ed); reflexivity.
  - intros sd ed Hna. rewrite parse_dates_eq, (parse_date_missing _ Hna).
    destruct (parse_date sd); reflexivity.
  - intros sd ed [(x & Hx) | (x & Hx)]; rewrite parse_dates_eq, Hx.
    + reflexivity.
    + destruct (parse_date sd); reflexivity.
  - exact parse_dates_both.
Qed.

Lemma dates_share_one_handler_witness :
  (exists p : Projected,
     @project Reference.pandas bad_end = Ok (Some p)
     /\ (start_date_parsed p, end_date_parsed p)
        = @parse_dates Reference.pandas (VStr (u "01/01/2026")) (VStr (u "soon"))
     /\ forall now : Timestamp,
          @process_row Reference.pandas now bad_end
          = (m <- calculate now p ;; Ok (Some (sheet2_row p m))))
  /\ (forall now : Timestamp, @process_row Reference.pandas now bad_end <> Ok None)
  /\ (forall cell : value,
        @parse_date Reference.pandas cell
        = if isna cell then Ok None
          else t <- Reference.to_datetime cell true ;; Ok (Some t))
  /\ (forall sd ed : value,
        @parse_dates Reference.pandas sd ed
        = match @parse_date Reference.pandas sd,
                @parse_date Reference.pandas ed with
          | Ok s, Ok e => (s, e)
          | _, _ => (None, None)
          end)
  /\ (forall sd ed : value,
        isna sd = true ->
        @parse_dates Reference.pandas sd ed
        = (None, try_except (@parse_date Reference.pandas ed) None))
  /\ (forall sd ed : value,
        isna ed = true ->
        @parse_dates Reference.pandas sd ed
        = (try_except (@parse_date Reference.pandas sd) None, None))
  /\ (forall sd ed : value,
        (exists x, @parse_date Reference.pandas sd = Raise x)
        \/ (exists x, @parse_date Reference.pandas ed = Raise x) ->
        @parse_dates Reference.pandas sd ed = (None, None))
  /\ (forall (sd ed : value) (s e : datetime),
        isna sd = false -> isna ed = false ->
        Reference.to_datetime sd true = Ok s ->
        Reference.to_datetime ed true = Ok e ->
        @parse_dates Reference.pandas sd ed = (Some s, Some e)).
Proof.
  apply (@dates_share_one_handler Reference.pandas bad_end
           (VStr (u "Bihar")) (VStr (u "1,200"))
           (VStr (u "01/01/2026")) (VStr (u "soon"))).
  - reflexivity.
  - reflexivity.
  - reflexivity.
  - reflexivity.
  - vm_compute. reflexivity.
Defined.

(** With the scenario parser an ambiguous date reads day first; a missing
    end date leaves the start date, an end date that is no date takes the
    start date with it, and an end date written [NaT] is kept as [NaT]. *)
Example day_first_reading :
  @parse_date Reference.pandas (VStr (u "02/01/2026"))
  = Ok (Some (Stamp (Reference.midnight 2026 1 2)))
  /\ @parse_dates Reference.pandas (VStr (u "02/01/2026")) nan
     = (Some (Stamp (Reference.midnight 2026 1 2)), None)
  /\ @parse_dates Reference.pandas nan (VStr (u "02/01/2026"))
     = (None, Some (Stamp (Reference.midnight 2026 1 2)))
  /\ @parse_dates Reference.pandas (VStr (u "02/01/2026")) (VStr (u "soon"))
     = (None, None)
  /\ @parse_dates Reference.pandas (VStr (u "02/01/2026")) (VStr (u "NaT"))
     = (Some (Stamp (Reference.midnight 2026 1 2)), Some NaT).
Proof. repeat split; vm_compute; reflexivity. Qed.

(** C5.  A row yields no record, and raises nothing, exactly when its state
    is missing or its text is empty or made of whitespace only.  In a run
    that returns, every other row has its record in the output, and the
    output has at most as many records as the table has rows. *)
Theorem skip_policy {pd : Pandas} (now : Timestamp) (rows data : list Series) :
  generate_sheet2_data now (Some rows) = Ok (Some data) ->
  (List.length data <= List.length rows)%nat
  /\ (forall (row : Series) (st : value),
        lookup col_state row = Some st ->
        (process_row now row = Ok None
         <-> isna st = true \/ whitespace_only (str st)))
  /\ (forall (row : Series) (st : value),
        In row rows -> lookup col_state row = Some st ->
        ~ (isna st = true \/ whitespace_only (str st)) ->
        exists out, process_row now row = Ok (Some out) /\ In out data)
  /\ (forall out : Series,
        In out data ->
        exists (row : Series) (st : value),
          In row rows /\ lookup col_state row = Some st
          /\ ~ (isna st = true \/ whitespace_only (str st))
          /\ process_row now row = Ok (Some out)).
Proof.
  intros Hgen. simpl in Hgen.
  apply bind_Ok_inv in Hgen as (data' & Hloop & Hdata).
  injection Hdata as <-.
  assert (Hiff : forall (row : Series) (st : value),
             lookup col_state row = Some st ->
             (process_row now row = Ok None
              <-> isna st = true \/ whitespace_only (str st))).
  { intros row st Hst. rewrite <- skip_state_iff, process_row_None_iff.
    split.
    - intros H. apply project_None_inv in H as (st' & Hst' & Hskip). congruence.
    - intros Hskip. apply (project_skip _ _ Hst Hskip). }
  split; [exact (rows_loop_length _ _ _ Hloop) |].
  split; [exact Hiff |].
  split.
  - intros row st Hin Hst Hn.
    destruct (rows_loop_complete _ _ _ Hloop row Hin) as (r & Hr & Hall).
    destruct r as [out |].
    + exists out. split; [exact Hr | apply Hall; reflexivity].
    + exfalso. apply Hn. apply (Hiff row st Hst). exact Hr.
  - intros out Hin.
    destruct (rows_loop_In _ _ _ _ Hloop Hin) as (row & Hrow & Hout).
    pose proof Hout as Hout'.
    apply process_row_Some_inv in Hout' as (p & m & Hp & _ & _).
    apply project_Some_inv in Hp as (st & _ & _ & _ & Hst & _ & _ & _ & Hskip & _).
    exists row, st. split; [exact Hrow |]. split; [exact Hst |].
    split; [| exact Hout].
    rewrite <- skip_state_iff. congruence.
Qed.

Lemma skip_policy_witness :
  @generate_sheet2_data Reference.pandas now_2026_01_13
    (Some [bihar; blank_state; missing_end])
  = Ok (Some (run [bihar; blank_state; missing_end]))
  /\ ((List.length (run [bihar; blank_state; missing_end])
       <= List.length [bihar; blank_state; missing_end])%nat
      /\ (forall (row : Series) (st : value),
            lookup col_state row = Some st ->
            (@process_row Reference.pandas now_2026_01_13 row = Ok None
             <-> isna st = true \/ whitespace_only (str st)))
      /\ (forall (row : Series) (st : value),
            In row [bihar; blank_state; missing_end] ->
            lookup col_state row = Some st ->
            ~ (isna st = true \/ whitespace_only (str st)) ->
            exists out,
              @process_row Reference.pandas now_2026_01_13 row = Ok (Some out)
              /\ In out (run [bihar; blank_state; missing_end]))
      /\ (forall out : Series,
            In out (run [bihar; blank_state; missing_end]) ->
            exists (row : Series) (st : value),
              In row [bihar; blank_state; missing_end]
              /\ lookup col_state row = Some st
              /\ ~ (isna st = true \/ whitespace_only (str st))
              /\ @process_row Reference.pandas now_2026_01_13 row
                 = Ok (Some out)))
  /\ List.length (run [bihar; blank_state; missing_end]) = 2%nat.
Proof.
  assert (H : @generate_sheet2_data Reference.pandas now_2026_01_13
                (Some [bihar; blank_state; missing_end])
              = Ok (Some (run [bihar; blank_state; missing_end])))
    by (vm_compute; reflexivity).
  split; [exact H |].
  split; [| vm_compute; reflexivity].
  exact (@skip_policy Reference.pandas now_2026_01_13
           [bihar; blank_state; missing_end]
           (run [bihar; blank_state; missing_end]) H).
Defined.

(** The blank state of the scenario table is dropped: two records of three
    rows. *)
Example blank_state_dropped :
  List.length (run [bihar; blank_state; missing_end]) = 2%nat
  /\ @process_row Reference.pandas now_2026_01_13 blank_state = Ok None.
Proof. split; vm_compute; reflexivity. Qed.

(** ** The target count *)

Lemma replace_comma_In (s : pystr) (c : N) :
  In c (replace_comma s) <-> In c s /\ c <> 44%N.
Proof.
  unfold replace_comma. rewrite filter_In, negb_true_iff, N.eqb_neq.
  reflexivity.
Qed.

Lemma coerce_plots_targeted_eq {pd : Pandas} (cell : value) :
  coerce_plots_targeted cell
  = match to_numeric (replace_comma (str cell)) with
    | Ok n => if number_isna n then PyInt 0 else n
    | Raise _ => PyInt 0
    end.
Proof.
  unfold coerce_plots_targeted.
  destruct (to_numeric (replace_comma (str cell))); reflexivity.
Qed.

(** C6.  The coercion of the target cell never drops a row and raises
    nothing: a row that is not skipped is projected whatever its target
    cell holds, and yields a record as soon as the calculator returns.  The
    target count is the number the parser reads from the text of the cell
    with every comma removed; when the parser raises or reads no number (a
    float nan, as it does for text such as "abc" and for the text of a
    missing cell) the count is the integer 0, and then the actual
    percentage of the row is 0 as well. *)
Theorem target_count_coercion {pd : Pandas} (now : Timestamp) (row : Series)
  (st targeted start_cell end_cell : value) :
  lookup col_state row = Some st ->
  lookup col_targeted row = Some targeted ->
  lookup col_start row = Some start_cell ->
  lookup col_end row = Some end_cell ->
  skip_state st = false ->
  exists p : Projected,
    project row = Ok (Some p)
    /\ process_row now row <> Ok None
    /\ (forall m : Progress,
          calculate now p = Ok m ->
          process_row now row = Ok (Some (sheet2_row p m))
          /\ lookup "b" (sheet2_row p m) = Some (VNum (plots_targeted p)))
    /\ plots_targeted p
       = match to_numeric (replace_comma (str targeted)) with
         | Ok n => if number_isna n then PyInt 0 else n
         | Raise _ => PyInt 0
         end
    /\ (forall c : N,
          In c (replace_comma (str targeted))
          <-> In c (str targeted) /\ c <> 44%N)
    /\ ((forall n, to_numeric (replace_comma (str targeted)) = Ok n ->
                   number_isna n = true) ->
        plots_targeted p = PyInt 0
        /\ forall m : Progress,
             calculate now p = Ok m ->
             lookup "b" (sheet2_row p m) = Some (VNum (PyInt 0))
             /\ actual_percentage m = PyInt 0
             /\ lookup "Actual % (Survey done)" (sheet2_row p m)
                = Some (VNum (PyInt 0)))
    /\ (isna targeted = true ->
        In (str targeted) [u "None"; u "NaT"; u "nan"]
        /\ replace_comma (str targeted) = str targeted).
Proof.
  intros Hst Htg Hsd Hed Hskip.
  pose proof (project_keep _ _ _ _ _ Hst Htg Hsd Hed Hskip) as Hp.
  eexists. split; [exact Hp |].
  split.
  { intros H. apply process_row_None_iff in H. congruence. }
  split.
  { intros m Hm. rewrite (process_row_keep now row _ Hp), Hm.
    split; reflexivity. }
  cbn [plots_targeted].
  split; [apply coerce_plots_targeted_eq |].
  split; [intros c; apply replace_comma_In |].
  split.
  - intros Hfail.
    assert (H0 : coerce_plots_targeted targeted = PyInt 0).
    { rewrite coerce_plots_targeted_eq.
      destruct (to_numeric (replace_comma (str targeted))) as [n | x] eqn:E;
        [| reflexivity].
      rewrite (Hfail n eq_refl). reflexivity. }
    split; [exact H0 |].
    intros m Hm. invert_calculate Hm td de Hdc.
    cbn [plots_targeted actual_percentage sheet2_row] in *.
    rewrite H0. repeat split; reflexivity.
  - intros Hna.
    destruct targeted as [| | s | [z | z | f | f] | t]; try discriminate Hna.
    + split; [left; reflexivity | reflexivity].
    + split; [right; left; reflexivity | reflexivity].
    + destruct f; try discriminate Hna.
      split; [right; right; left; reflexivity | reflexivity].
    + destruct f; try discriminate Hna.
      split; [right; right; left; reflexivity | reflexivity].
Qed.

(** The rows with the target "abc" and with a missing target: both are
    projected and emitted, with a target count of 0 and an actual
    percentage of 0. *)
Lemma target_count_coercion_witness :
  (exists (p : Projected) (m : Progress),
     @project Reference.pandas abc_target = Ok (Some p)
     /\ calculate now_2026_01_13 p = Ok m
     /\ @process_row Reference.pandas now_2026_01_13 abc_target
        = Ok (Some (sheet2_row p m))
     /\ plots_targeted p = PyInt 0
     /\ lookup "b" (sheet2_row p m) = Some (VNum (PyInt 0))
     /\ actual_percentage m = PyInt 0
     /\ lookup "Actual % (Survey done)" (sheet2_row p m) = Some (VNum (PyInt 0)))
  /\ (exists (p : Projected) (m : Progress),
        @project Reference.pandas missing_target = Ok (Some p)
        /\ calculate now_2026_01_13 p = Ok m
        /\ @process_row Reference.pandas now_2026_01_13 missing_target
           = Ok (Some (sheet2_row p m))
        /\ plots_targeted p = PyInt 0
        /\ lookup "b" (sheet2_row p m) = Some (VNum (PyInt 0))
        /\ actual_percentage m = PyInt 0
        /\ lookup "Actual % (Survey done)" (sheet2_row p m)
           = Some (VNum (PyInt 0))).
Proof.
  split.
  - destruct (@target_count_coercion Reference.pandas now_2026_01_13 abc_target
                (VStr (u "Bihar")) (VStr (u "abc"))
                (VStr (u "01/01/2026")) (VStr (u "31/01/2026"))
                eq_refl eq_refl eq_refl eq_refl eq_refl)
      as (p & Hp & _ & Hrow & _ & _ & Hfail & _).
    assert (Hnan : forall n,
               Reference.to_numeric (replace_comma (str (VStr (u "abc")))) = Ok n ->
               number_isna n = true).
    { intros n Hn. vm_compute in Hn. injection Hn as <-. reflexivity. }
    destruct (Hfail Hnan) as (H0 & Hrec).
    assert (Hm : exists m, calculate now_2026_01_13 p = Ok m).
    { vm_compute in Hp. injection Hp as <-. eexists. lazy. reflexivity. }
    destruct Hm as (m & Hm). exists p, m.
    destruct (Hrow m Hm) as (Hout & _).
    destruct (Hrec m Hm) as (Hb & Ha & Hs).
    repeat split; assumption.
  - destruct (@target_count_coercion Reference.pandas now_2026_01_13
                missing_target
                (VStr (u "Bihar")) nan
                (VStr (u "01/01/2026")) (VStr (u "31/01/2026"))
                eq_refl eq_refl eq_refl eq_refl eq_refl)
      as (p & Hp & _ & Hrow & _ & _ & Hfail & _).
    assert (Hnan : forall n,
               Reference.to_numeric (replace_comma (str nan)) = Ok n ->
               number_isna n = true).
    { intros n Hn. vm_compute in Hn. injection Hn as <-. reflexivity. }
    destruct (Hfail Hnan) as (H0 & Hrec).
    assert (Hm : exists m, calculate now_2026_01_13 p = Ok m).
    { vm_compute in Hp. injection Hp as <-. eexists. lazy. reflexivity. }
    destruct Hm as (m & Hm). exists p, m.
    destruct (Hrow m Hm) as (Hout & _).
    destruct (Hrec m Hm) as (Hb & Ha & Hs).
    repeat split; assumption.
Defined.

(** The scenario rows of the target count: "abc" and a missing cell give
    0 and an actual percentage of 0; "1,200" gives 1200. *)
Example target_count_scenarios :
  lookup "b" (first_record (run [abc_target])) = Some (VNum (PyInt 0))
  /\ lookup "Actual % (Survey done)" (first_record (run [abc_target]))
     = Some (VNum (PyInt 0))
  /\ List.length (run [abc_target]) = 1%nat
  /\ lookup "b" (first_record (run [missing_target])) = Some (VNum (PyInt 0))
  /\ lookup "Actual % (Survey done)" (first_record (run [missing_target]))
     = Some (VNum (PyInt 0))
  /\ List.length (run [missing_target]) = 1%nat
  /\ @coerce_plots_targeted Reference.pandas nan = PyInt 0
  /\ @coerce_plots_targeted Reference.pandas VNone = PyInt 0
  /\ @coerce_plots_targeted Reference.pandas VNaT = PyInt 0
  /\ @coerce_plots_targeted Reference.pandas (VStr (u "1,200")) = NpInt64 1200.
Proof. repeat split; vm_compute; reflexivity. Qed.

(** * Further properties of the pipeline *)

Section LoopFacts.

Context {pd : Pandas}.

Lemma rows_loop_app (now : Timestamp) (rows1 rows2 : list Series) :
  rows_loop now (rows1 ++ rows2)
  = (data1 <- rows_loop now rows1 ;;
     data2 <- rows_loop now rows2 ;;
     Ok (data1 ++ data2)).
Proof.
  induction rows1 as [| row rest IH]; simpl.
  - destruct (rows_loop now rows2); reflexivity.
  - destruct (process_row now row) as [r | x]; simpl; [| reflexivity].
    rewrite IH.
    destruct (rows_loop now rest) as [d1 | x]; simpl; [| reflexivity].
    destruct (rows_loop now rows2) as [d2 | x]; simpl; [| reflexivity].
    destruct r; reflexivity.
Qed.

Lemma rows_loop_emitted (now : Timestamp) (rows data : list Series) :
  rows_loop now rows = Ok data -> data = flat_map (emitted now) rows.
Proof.
  revert data. induction rows as [| row rest IH]; simpl; intros data H.
  - injection H as <-. reflexivity.
  - apply bind_Ok_inv in H as (r & Hr & H).
    apply bind_Ok_inv in H as (tl & Htl & H).
    injection H as <-. unfold emitted at 1. rewrite Hr, (IH _ Htl).
    destruct r; reflexivity.
Qed.

Lemma rows_loop_raise (now : Timestamp) (pre post data : list Series)
  (row : Series) (x : exn) :
  rows_loop now pre = Ok data ->
  process_row now row = Raise x ->
  rows_loop now (pre ++ row :: post) = Raise x.
Proof.
  intros Hpre Hrow. rewrite rows_loop_app.
  rewrite Hpre. simpl. rewrite Hrow. reflexivity.
Qed.

End LoopFacts.

(** X1.  When the run returns, its output is the records of the rows that
    are not skipped, one per row, in the order of the table. *)
Theorem output_in_table_order {pd : Pandas} (now : Timestamp)
  (rows data : list Series) :
  generate_sheet2_data now (Some rows) = Ok (Some data) ->
  data = flat_map (emitted now) rows
  /\ forall i j out_i out_j row_i row_j,
       nth_error rows i = Some row_i -> nth_error rows j = Some row_j ->
       process_row now row_i = Ok (Some out_i) ->
       process_row now row_j = Ok (Some out_j) ->
       (i < j)%nat ->
       exists a b c, data = a ++ out_i :: b ++ out_j :: c.
Proof.
  intros Hgen. simpl in Hgen.
  apply bind_Ok_inv in Hgen as (data' & Hloop & Hdata).
  injection Hdata as <-.
  pose proof (rows_loop_emitted _ _ _ Hloop) as Hflat.
  split; [exact Hflat |].
  intros i j out_i out_j row_i row_j Hi Hj Pi Pj Hlt.
  apply nth_error_split in Hi as (l1 & l2 & -> & Hlen).
  assert (Hj' : nth_error l2 (j - S i) = Some row_j).
  { rewrite nth_error_app2 in Hj by lia.
    replace (j - List.length l1)%nat with (S (j - S i)) in Hj by lia.
    exact Hj. }
  apply nth_error_split in Hj' as (l3 & l4 & -> & _).
  rewrite Hflat, flat_map_app. cbn [flat_map].
  rewrite flat_map_app. cbn [flat_map].
  unfold emitted at 2 4. rewrite Pi, Pj. cbn [app].
  eexists. eexists. eexists. reflexivity.
Qed.

Lemma output_in_table_order_witness :
  @generate_sheet2_data Reference.pandas now_2026_01_13
    (Some [bihar; blank_state; reversed])
  = Ok (Some (run [bihar; blank_state; reversed]))
  /\ (run [bihar; blank_state; reversed]
      = flat_map (@emitted Reference.pandas now_2026_01_13)
          [bihar; blank_state; reversed]
      /\ forall i j out_i out_j row_i row_j,
           nth_error [bihar; blank_state; reversed] i = Some row_i ->
           nth_error [bihar; blank_state; reversed] j = Some row_j ->
           @process_row Reference.pandas now_2026_01_13 row_i = Ok (Some out_i) ->
           @process_row Reference.pandas now_2026_01_13 row_j = Ok (Some out_j) ->
           (i < j)%nat ->
           exists a b c,
             run [bihar; blank_state; reversed] = a ++ out_i :: b ++ out_j :: c).
Proof.
  assert (H : @generate_sheet2_data Reference.pandas now_2026_01_13
                (Some [bihar; blank_state; reversed])
              = Ok (Some (run [bihar; blank_state; reversed])))
    by (vm_compute; reflexivity).
  split; [exact H |].
  exact (@output_in_table_order Reference.pandas now_2026_01_13
           [bihar; blank_state; reversed]
           (run [bihar; blank_state; reversed]) H).
Defined.

(** X2.  Rows are handled independently of one another: the run on two
    tables put end to end is the run on the first followed by the run on the
    second, with the first exception met, if any. *)
Theorem run_of_concatenation {pd : Pandas} (now : Timestamp)
  (rows1 rows2 : list Series) :
  generate_sheet2_data now (Some (rows1 ++ rows2))
  = (r1 <- generate_sheet2_data now (Some rows1) ;;
     r2 <- generate_sheet2_data now (Some rows2) ;;
     match r1, r2 with
     | Some data1, Some data2 => Ok (Some (data1 ++ data2))
     | _, _ => Ok None
     end).
Proof.
  simpl. rewrite rows_loop_app.
  destruct (rows_loop now rows1) as [d1 | x]; simpl; [| reflexivity].
  destruct (rows_loop now rows2) as [d2 | x]; reflexivity.
Qed.

(** X3.  A row without the state column ends the run with
    [KeyError('State')], whatever the rows before it produced: no partial
    output is returned.  The other three columns are only read for a row
    that is kept: a row with a blank or missing state and no other column
    is skipped without error, a kept row without the target column raises
    the [KeyError] of that column. *)
Theorem missing_column_raises {pd : Pandas} (now : Timestamp)
  (pre post data : list Series) :
  generate_sheet2_data now (Some pre) = Ok (Some data) ->
  (forall row : Series,
     lookup col_state row = None ->
     generate_sheet2_data now (Some (pre ++ row :: post))
     = Raise (KeyError col_state))
  /\ (forall (row : Series) (st : value),
        lookup col_state row = Some st -> skip_state st = false ->
        lookup col_targeted row = None ->
        generate_sheet2_data now (Some (pre ++ row :: post))
        = Raise (KeyError col_targeted))
  /\ (forall st, skip_state st = true ->
        process_row now (state_only st) = Ok None).
Proof.
  intros Hpre. simpl in Hpre.
  apply bind_Ok_inv in Hpre as (d & Hd & _).
  split; [| split].
  - intros row Hnone. simpl.
    rewrite (rows_loop_raise now pre post d row (KeyError col_state) Hd);
      [reflexivity |].
    unfold process_row, project, getitem. rewrite Hnone. reflexivity.
  - intros row st Hst Hskip Hnone. simpl.
    rewrite (rows_loop_raise now pre post d row (KeyError col_targeted) Hd);
      [reflexivity |].
    unfold process_row, project.
    rewrite (getitem_lookup _ _ _ Hst). cbn [bind]. rewrite Hskip.
    cbn [bind]. unfold getitem at 1. rewrite Hnone. reflexivity.
  - intros st Hskip. unfold process_row.
    rewrite (project_skip (state_only st) st eq_refl Hskip). reflexivity.
Qed.

Lemma missing_column_raises_witness :
  @generate_sheet2_data Reference.pandas now_2026_01_13 (Some [bihar])
  = Ok (Some (run [bihar]))
  /\ ((forall row : Series,
         lookup col_state row = None ->
         @generate_sheet2_data Reference.pandas now_2026_01_13
           (Some ([bihar] ++ row :: [reversed]))
         = Raise (KeyError col_state))
      /\ (forall (row : Series) (st : value),
            lookup col_state row = Some st -> skip_state st = false ->
            lookup col_targeted row = None ->
            @generate_sheet2_data Reference.pandas now_2026_01_13
              (Some ([bihar] ++ row :: [reversed]))
            = Raise (KeyError col_targeted))
      /\ (forall st, skip_state st = true ->
            @process_row Reference.pandas now_2026_01_13 (state_only st)
            = Ok None))
  /\ @generate_sheet2_data Reference.pandas now_2026_01_13
       (Some ([bihar] ++ empty_row :: [reversed]))
     = Raise (KeyError col_state)
  /\ @generate_sheet2_data Reference.pandas now_2026_01_13
       (Some ([bihar] ++ state_only (VStr (u "Assam")) :: [reversed]))
     = Raise (KeyError col_targeted).
Proof.
  assert (H : @generate_sheet2_data Reference.pandas now_2026_01_13 (Some [bihar])
              = Ok (Some (run [bihar])))
    by (vm_compute; reflexivity).
  pose proof (@missing_column_raises Reference.pandas now_2026_01_13
                [bihar] [reversed] (run [bihar]) H) as (H1 & H2 & H3).
  split; [exact H |].
  split; [split; [exact H1 | split; [exact H2 | exact H3]] |].
  split.
  - apply H1. reflexivity.
  - apply (H2 _ (VStr (u "Assam"))); [reflexivity | vm_compute; reflexivity | reflexivity].
Defined.

(** ** The clock *)

Lemma days_between_mono (a b s : Timestamp) :
  ns_of a <= ns_of b -> days_between a s <= days_between b s.
Proof.
  intros H. unfold days_between. apply Z.div_le_mono; lia.
Qed.

Lemma day_counts_mono (now1 now2 : Timestamp) (s e : option datetime)
  (td1 de1 td2 de2 : number) :
  day_counts now1 s e = Ok (td1, de1) ->
  day_counts now2 s e = Ok (td2, de2) ->
  ns_of now1 <= ns_of now2 ->
  td1 = td2
  /\ exists k1 k2 : Z, de1 = PyInt k1 /\ de2 = PyInt k2 /\ k1 <= k2.
Proof.
  intros H1 H2 Hle.
  destruct s as [s' |]; [destruct e as [e' |] |].
  - cbn [day_counts] in H1, H2.
    apply bind_Ok_inv in H1 as (t1 & Ht1 & H1).
    apply bind_Ok_inv in H1 as (k1 & Hk1 & H1). injection H1 as <- <-.
    apply bind_Ok_inv in H2 as (t2 & Ht2 & H2).
    apply bind_Ok_inv in H2 as (k2 & Hk2 & H2). injection H2 as <- <-.
    assert (t2 = t1) by congruence. subst t2.
    split; [reflexivity |].
    destruct s' as [s |].
    + apply sub_days_stamps in Hk1 as (-> & _).
      apply sub_days_stamps in Hk2 as (-> & _).
      pose proof (days_between_mono now1 now2 s Hle).
      destruct (sub_days_class _ _ _ Ht1) as [(t & ->) | ->].
      * rewrite !clamp_ints. eexists. eexists.
        split; [reflexivity |]. split; [reflexivity |]. lia.
      * rewrite !clamp_nan_total. eexists. eexists.
        split; [reflexivity |]. split; [reflexivity |]. lia.
    + injection Hk1 as <-. injection Hk2 as <-.
      rewrite !clamp_nan_elapsed. exists 0, 0.
      split; [reflexivity |]. split; [reflexivity |]. lia.
  - injection H1 as <- <-. injection H2 as <- <-.
    split; [reflexivity |]. exists 0, 0.
    split; [reflexivity |]. split; [reflexivity |]. lia.
  - injection H1 as <- <-. injection H2 as <- <-.
    split; [reflexivity |]. exists 0, 0.
    split; [reflexivity |]. split; [reflexivity |]. lia.
Qed.

(** X4.  Progress never goes back: when the calculator returns for the
    same row at two clock readings, the later one gives at least as many
    days elapsed, and the same total. *)
Theorem elapsed_monotone_in_clock (now1 now2 : Timestamp) (p : Projected)
  (m1 m2 : Progress) :
  calculate now1 p = Ok m1 ->
  calculate now2 p = Ok m2 ->
  ns_of now1 <= ns_of now2 ->
  total_days m1 = total_days m2
  /\ exists k1 k2 : Z,
       days_elapsed m1 = PyInt k1 /\ days_elapsed m2 = PyInt k2 /\ k1 <= k2.
Proof.
  intros H1 H2 Hle.
  apply calculate_Ok_inv in H1. apply calculate_Ok_inv in H2.
  exact (day_counts_mono _ _ _ _ _ _ _ _ H1 H2 Hle).
Qed.

Lemma elapsed_monotone_in_clock_witness :
  exists m1 m2 : Progress,
    calculate (Reference.midnight 2026 1 13) january_plan = Ok m1
    /\ calculate (Reference.midnight 2026 1 20) january_plan = Ok m2
    /\ ns_of (Reference.midnight 2026 1 13) <= ns_of (Reference.midnight 2026 1 20)
    /\ total_days m1 = total_days m2
    /\ (exists k1 k2 : Z,
          days_elapsed m1 = PyInt k1 /\ days_elapsed m2 = PyInt k2 /\ k1 <= k2)
    /\ days_elapsed m1 = PyInt 12 /\ days_elapsed m2 = PyInt 19.
Proof.
  destruct (calculate (Reference.midnight 2026 1 13) january_plan)
    as [m1 | x] eqn:H1; [| vm_compute in H1; discriminate H1].
  destruct (calculate (Reference.midnight 2026 1 20) january_plan)
    as [m2 | x] eqn:H2; [| vm_compute in H2; discriminate H2].
  assert (H : ns_of (Reference.midnight 2026 1 13)
              <= ns_of (Reference.midnight 2026 1 20))
    by (vm_compute; discriminate).
  exists m1, m2.
  split; [reflexivity |]. split; [reflexivity |]. split; [exact H |].
  destruct (elapsed_monotone_in_clock _ _ _ _ _ H1 H2 H) as (Ht & Hk).
  split; [exact Ht |]. split; [exact Hk |].
  vm_compute in H1. injection H1 as <-.
  vm_compute in H2. injection H2 as <-.
  split; reflexivity.
Defined.

(** X5.  The days elapsed saturate at both ends: when the calculator
    returns for a row with two dates, the days elapsed are 0 at a clock
    reading less than one full day after the start, and they equal the
    total at a reading not before an end date that is not before the
    start. *)
Theorem elapsed_saturates (early late s e : Timestamp) (p : Projected)
  (m1 m2 : Progress) :
  start_date_parsed p = Some (Stamp s) ->
  end_date_parsed p = Some (Stamp e) ->
  calculate early p = Ok m1 ->
  calculate late p = Ok m2 ->
  ns_of early < ns_of s + 86400000000000 ->
  ns_of s <= ns_of e ->
  ns_of e <= ns_of late ->
  days_elapsed m1 = PyInt 0
  /\ days_elapsed m2 = total_days m2
  /\ total_days m2 = PyInt (days_between e s)
  /\ 0 <= days_between e s.
Proof.
  intros Hs He H1 H2 Hearly Hse Hlate.
  apply calculate_Ok_inv in H1. apply calculate_Ok_inv in H2.
  rewrite Hs, He in H1, H2.
  apply day_counts_stamps in H1 as (_ & ->).
  apply day_counts_stamps in H2 as (-> & ->).
  assert (days_between early s < 1).
  { unfold days_between. apply Z.div_lt_upper_bound; lia. }
  pose proof (days_between_mono e late s Hlate).
  assert (0 <= days_between e s).
  { unfold days_between. apply Z.div_pos; lia. }
  split; [f_equal; lia |].
  split; [f_equal; lia |].
  split; [reflexivity | assumption].
Qed.

Lemma elapsed_saturates_witness :
  exists m1 m2 : Progress,
    calculate (mkTimestamp 2026 1 1 18 0 0 0 0 None) january_plan = Ok m1
    /\ calculate (Reference.midnight 2026 2 15) january_plan = Ok m2
    /\ (ns_of (mkTimestamp 2026 1 1 18 0 0 0 0 None)
        < ns_of (Reference.midnight 2026 1 1) + 86400000000000
        /\ ns_of (Reference.midnight 2026 1 1) <= ns_of (Reference.midnight 2026 1 31)
        /\ ns_of (Reference.midnight 2026 1 31) <= ns_of (Reference.midnight 2026 2 15))
    /\ days_elapsed m1 = PyInt 0
    /\ days_elapsed m2 = total_days m2
    /\ total_days m2
       = PyInt (days_between (Reference.midnight 2026 1 31)
                             (Reference.midnight 2026 1 1))
    /\ 0 <= days_between (Reference.midnight 2026 1 31)
                         (Reference.midnight 2026 1 1).
Proof.
  destruct (calculate (mkTimestamp 2026 1 1 18 0 0 0 0 None) january_plan)
    as [m1 | x] eqn:H1; [| vm_compute in H1; discriminate H1].
  destruct (calculate (Reference.midnight 2026 2 15) january_plan)
    as [m2 | x] eqn:H2; [| vm_compute in H2; discriminate H2].
  assert (Ha : ns_of (mkTimestamp 2026 1 1 18 0 0 0 0 None)
               < ns_of (Reference.midnight 2026 1 1) + 86400000000000)
    by (vm_compute; reflexivity).
  assert (Hb : ns_of (Reference.midnight 2026 1 1)
               <= ns_of (Reference.midnight 2026 1 31))
    by (vm_compute; discriminate).
  assert (Hc : ns_of (Reference.midnight 2026 1 31)
               <= ns_of (Reference.midnight 2026 2 15))
    by (vm_compute; discriminate).
  exists m1, m2.
  split; [reflexivity |]. split; [reflexivity |].
  split; [split; [exact Ha | split; [exact Hb | exact Hc]] |].
  exact (elapsed_saturates _ _ _ _ january_plan m1 m2 eq_refl eq_refl
           H1 H2 Ha Hb Hc).
Defined.

(** ** What reaches the output *)

Lemma convert_types_null_iff (v : value) :
  convert_types v = JNull <-> isna v = true.
Proof.
  unfold convert_types.
  destruct v as [| | s | [z | z | f | f] | t]; simpl;
    try (split; [discriminate | discriminate]);
    try (split; reflexivity).
  - destruct f; simpl; split; try discriminate; reflexivity.
  - destruct f; simpl; split; try discriminate; reflexivity.
Qed.

Lemma coerce_plots_targeted_not_na {pd : Pandas} (cell : value) :
  number_isna (coerce_plots_targeted cell) = false.
Proof.
  rewrite coerce_plots_targeted_eq.
  destruct (to_numeric (replace_comma (str cell))) as [n | x]; [| reflexivity].
  destruct (number_isna n) eqn:E; [reflexivity | exact E].
Qed.

Lemma generate_In {pd : Pandas} (now : Timestamp) (rows data : list Series)
  (out : Series) :
  generate_sheet2_data now (Some rows) = Ok (Some data) -> In out data ->
  exists row st targeted start_cell end_cell m,
    In row rows
    /\ lookup col_state row = Some st
    /\ skip_state st = false
    /\ calculate now (mkProjected st (coerce_plots_targeted targeted)
                        start_cell end_cell
                        (fst (parse_dates start_cell end_cell))
                        (snd (parse_dates start_cell end_cell))) = Ok m
    /\ out = sheet2_row (mkProjected st (coerce_plots_targeted targeted)
                           start_cell end_cell
                           (fst (parse_dates start_cell end_cell))
                           (snd (parse_dates start_cell end_cell))) m.
Proof.
  intros Hgen Hin. simpl in Hgen.
  apply bind_Ok_inv in Hgen as (data' & Hloop & Hdata).
  injection Hdata as <-.
  destruct (rows_loop_In _ _ _ _ Hloop Hin) as (row & Hrow & Hout).
  apply process_row_Some_inv in Hout as (p & m & Hp & Hm & ->).
  apply project_Some_inv in Hp
    as (st & tg & sd & ed & Hst & _ & _ & _ & Hskip & ->).
  exists row, st, tg, sd, ed, m. repeat split; assumption.
Qed.

(** X6.  No emitted record has a missing or blank state, and none has a
    missing target count: in the JSON neither ["a"] nor ["b"] is ever
    null. *)
Theorem state_and_target_never_null {pd : Pandas} (now : Timestamp)
  (rows data : list Series) (out : Series) :
  generate_sheet2_data now (Some rows) = Ok (Some data) ->
  In out data ->
  exists (st : value) (plots : number),
    lookup "a" out = Some st
    /\ isna st = false
    /\ ~ whitespace_only (str st)
    /\ convert_types st <> JNull
    /\ lookup "b" out = Some (VNum plots)
    /\ number_isna plots = false
    /\ convert_types (VNum plots) <> JNull.
Proof.
  intros Hgen Hin.
  destruct (generate_In _ _ _ _ Hgen Hin)
    as (row & st & tg & sd & ed & m & _ & _ & Hskip & _ & ->).
  exists st, (coerce_plots_targeted tg).
  assert (Hno : ~ (isna st = true \/ whitespace_only (str st))).
  { rewrite <- skip_state_iff. rewrite Hskip. discriminate. }
  assert (Hna : isna st = false).
  { destruct (isna st); [exfalso; apply Hno; left |]; reflexivity. }
  split; [reflexivity |]. split; [exact Hna |].
  split; [intros H; apply Hno; right; exact H |].
  split; [rewrite convert_types_null_iff, Hna; discriminate |].
  split; [reflexivity |].
  split; [apply coerce_plots_targeted_not_na |].
  rewrite convert_types_null_iff. simpl.
  rewrite coerce_plots_targeted_not_na. discriminate.
Qed.

Lemma state_and_target_never_null_witness :
  (@generate_sheet2_data Reference.pandas now_2026_01_13
     (Some [blank_state; abc_target])
   = Ok (Some (run [blank_state; abc_target]))
   /\ In (first_record (run [abc_target])) (run [blank_state; abc_target]))
  /\ exists (st : value) (plots : number),
       lookup "a" (first_record (run [abc_target])) = Some st
       /\ isna st = false
       /\ ~ whitespace_only (str st)
       /\ convert_types st <> JNull
       /\ lookup "b" (first_record (run [abc_target])) = Some (VNum plots)
       /\ number_isna plots = false
       /\ convert_types (VNum plots) <> JNull.
Proof.
  assert (H1 : @generate_sheet2_data Reference.pandas now_2026_01_13
                 (Some [blank_state; abc_target])
               = Ok (Some (run [blank_state; abc_target])))
    by (vm_compute; reflexivity).
  assert (H2 : In (first_record (run [abc_target]))
                  (run [blank_state; abc_target]))
    by (vm_compute; left; reflexivity).
  split; [split; assumption |].
  exact (@state_and_target_never_null Reference.pandas now_2026_01_13
           [blank_state; abc_target] (run [blank_state; abc_target])
           (first_record (run [abc_target])) H1 H2).
Defined.

Lemma convert_keys (row : Series) :
  List.map fst (List.map (fun kv => (fst kv, convert_types (snd kv))) row)
  = List.map fst row.
Proof.
  induction row as [| [k v] rest IH]; simpl; [| rewrite IH]; reflexivity.
Qed.

(** X7.  Every record of the output has the same thirteen keys, in the
    order the script writes them, and serialisation keeps the number of
    records and the keys of each. *)
Theorem output_schema {pd : Pandas} (now : Timestamp) (rows data : list Series) :
  generate_sheet2_data now (Some rows) = Ok (Some data) ->
  exists converted : list (list (string * json)),
    convert_to_json (Some data) = Some converted
    /\ List.length converted = List.length data
    /\ Forall (fun out => List.map fst out = sheet2_keys) data
    /\ Forall (fun obj => List.map fst obj = sheet2_keys) converted.
Proof.
  intros Hgen. eexists. split; [reflexivity |].
  split; [apply length_map |].
  assert (Hdata : Forall (fun out => List.map fst out = sheet2_keys) data).
  { apply Forall_forall. intros out Hin.
    destruct (generate_In _ _ _ _ Hgen Hin)
      as (row & st & tg & sd & ed & m & _ & _ & _ & _ & ->).
    reflexivity. }
  split; [exact Hdata |].
  apply Forall_map. apply Forall_forall. intros out Hin.
  rewrite Forall_forall in Hdata.
  rewrite convert_keys. exact (Hdata out Hin).
Qed.

Lemma output_schema_witness :
  @generate_sheet2_data Reference.pandas now_2026_01_13
    (Some [bihar; blank_state; reversed])
  = Ok (Some (run [bihar; blank_state; reversed]))
  /\ exists converted : list (list (string * json)),
       convert_to_json (Some (run [bihar; blank_state; reversed]))
       = Some converted
       /\ List.length converted
          = List.length (run [bihar; blank_state; reversed])
       /\ Forall (fun out => List.map fst out = sheet2_keys)
            (run [bihar; blank_state; reversed])
       /\ Forall (fun obj => List.map fst obj = sheet2_keys) converted.
Proof.
  assert (H : @generate_sheet2_data Reference.pandas now_2026_01_13
                (Some [bihar; blank_state; reversed])
              = Ok (Some (run [bihar; blank_state; reversed])))
    by (vm_compute; reflexivity).
  split; [exact H |].
  exact (@output_schema Reference.pandas now_2026_01_13
           [bihar; blank_state; reversed]
           (run [bihar; blank_state; reversed]) H).
Defined.







(** * The table loader *)

(** X9.  The header quirk: a sheet read under a placeholder header (its
    second label reads "Unnamed...") whose first row holds the real names
    is loaded as the same sheet read under those names - the first row
    becomes the labels and leaves the data, nothing is printed - as long
    as the second real name does not itself read "Unnamed". *)
Theorem placeholder_header_is_replaced (path : pystr)
  (labels names : list value) (data : list (list value))
  (label name : value) :
  nth_error labels 1 = Some label ->
  contains (u "Unnamed") (str label) = true ->
  List.length names = List.length labels ->
  nth_error names 1 = Some name ->
  contains (u "Unnamed") (str name) = false ->
  read_excel_sheet1 path (Done (mkDataFrame labels (names :: data)))
  = ([], Some (mkDataFrame names data))
  /\ read_excel_sheet1 path (Done (mkDataFrame names data))
     = ([], Some (mkDataFrame names data)).
Proof.
  intros Hlabel Hun Hlen Hname Hnot.
  unfold read_excel_sheet1, promote_header. cbn [columns cells].
  rewrite Hlabel, Hun, Hname, Hnot, Hlen, Nat.eqb_refl.
  repeat split; reflexivity.
Qed.

Lemma placeholder_header_is_replaced_witness :
  read_excel_sheet1 excel_file (Done (mkDataFrame placeholder (header :: sheet_rows)))
  = ([], Some (mkDataFrame header sheet_rows))
  /\ read_excel_sheet1 excel_file (Done (mkDataFrame header sheet_rows))
     = ([], Some (mkDataFrame header sheet_rows)).
Proof.
  apply (placeholder_header_is_replaced excel_file placeholder header sheet_rows
           (VStr (u "Unnamed: 1")) (VStr (u col_targeted))).
  - reflexivity.
  - vm_compute. reflexivity.
  - reflexivity.
  - reflexivity.
  - vm_compute. reflexivity.
Defined.

(** A loader that returns a frame has printed nothing. *)
Lemma loader_quiet (path : pystr) (excel : attempt DataFrame) :
  snd (read_excel_sheet1 path excel) <> None ->
  fst (read_excel_sheet1 path excel) = [].
Proof.
  unfold read_excel_sheet1.
  destruct excel as [df | e]; [destruct (promote_header df) as [df' | e] |];
    try destruct e; cbn [fst snd]; intros H; try reflexivity;
    exfalso; apply H; reflexivity.
Qed.

(** X10.  The loader never raises: it returns a frame and prints nothing,
    or returns nothing and prints exactly one message.  A sheet with fewer
    than two columns is reported as a read error although it was read; so
    is a sheet with a placeholder header and no row; a missing file gets
    the message that names the path. *)
Theorem loader_outcomes (path : pystr) (excel : attempt DataFrame) :
  (snd (read_excel_sheet1 path excel) = None
   <-> List.length (fst (read_excel_sheet1 path excel)) = 1%nat)
  /\ (snd (read_excel_sheet1 path excel) <> None ->
      fst (read_excel_sheet1 path excel) = [])
  /\ (forall df, excel = Done df -> (List.length (columns df) < 2)%nat ->
        read_excel_sheet1 path excel
        = ([LineWithError (u "Error reading Excel file: ")
              (ColumnIndexError (List.length (columns df)))], None))
  /\ (forall df label, excel = Done df ->
        nth_error (columns df) 1 = Some label ->
        contains (u "Unnamed") (str label) = true ->
        cells df = [] ->
        read_excel_sheet1 path excel
        = ([LineWithError (u "Error reading Excel file: ") RowIndexError], None))
  /\ (excel = Failed FileNotFoundError ->
      read_excel_sheet1 path excel
      = ([Line (u "Error: File '" ++ path ++ u "' not found.")], None)).
Proof.
  split; [| split; [| split; [| split]]].
  - unfold read_excel_sheet1.
    destruct excel as [df | e]; [destruct (promote_header df) as [df' | e] |];
      try destruct e; cbn [fst snd List.length];
      split; intros H; try reflexivity; discriminate H.
  - unfold read_excel_sheet1.
    destruct excel as [df | e]; [destruct (promote_header df) as [df' | e] |];
      try destruct e; cbn [fst snd]; intros H; try reflexivity;
      exfalso; apply H; reflexivity.
  - intros df -> Hlt. unfold read_excel_sheet1, promote_header.
    assert (Hnone : nth_error (columns df) 1 = None)
      by (apply nth_error_None; lia).
    rewrite Hnone. reflexivity.
  - intros df label -> Hlabel Hun Hcells.
    unfold read_excel_sheet1, promote_header.
    rewrite Hlabel, Hun, Hcells. reflexivity.
  - intros ->. reflexivity.
Qed.

(** * The driver *)

Lemma to_series_lookup_None (name : string) (labels row : list value) :
  Forall (fun label => label_key label <> Some name) labels ->
  lookup name (to_series labels row) = None.
Proof.
  intros H. revert row.
  induction H as [| label labels Hl _ IH]; intros row; [reflexivity |].
  destruct row as [| cell row]; [reflexivity |]. simpl.
  destruct (label_key label) as [k |] eqn:E; [| apply IH].
  simpl. destruct (String.eqb k name) eqn:Ek; [| apply IH].
  apply String.eqb_eq in Ek. subst k. contradiction.
Qed.

Lemma to_series_lookup_Some (name : string) (labels row : list value) :
  In (Some name) (List.map label_key labels) ->
  List.length row = List.length labels ->
  exists cell, lookup name (to_series labels row) = Some cell.
Proof.
  revert row. induction labels as [| label labels IH]; intros row Hin Hlen.
  - contradiction.
  - destruct row as [| cell row]; [discriminate Hlen |].
    simpl in Hlen. injection Hlen as Hlen. simpl.
    destruct (label_key label) as [k |] eqn:E.
    + simpl. destruct (String.eqb k name) eqn:Ek.
      * exists cell. reflexivity.
      * apply IH; [| exact Hlen].
        destruct Hin as [Hin | Hin]; [| exact Hin].
        simpl in Hin. rewrite E in Hin. injection Hin as ->.
        rewrite String.eqb_refl in Ek. discriminate Ek.
    + apply IH; [| exact Hlen].
      destruct Hin as [Hin | Hin]; [| exact Hin].
      simpl in Hin. rewrite E in Hin. discriminate Hin.
Qed.

Lemma ready_In (df : DataFrame) (name : string) :
  count_label name df = 1%nat ->
  In (Some name) (List.map label_key (columns df)).
Proof.
  unfold count_label. intros H.
  destruct (filter (is_label name) (columns df)) as [| label rest] eqn:E;
    [discriminate H |].
  assert (Hin : In label (filter (is_label name) (columns df)))
    by (rewrite E; left; reflexivity).
  apply filter_In in Hin as (Hin & Hlabel).
  apply in_map_iff. exists label. split; [| exact Hin].
  unfold is_label in Hlabel.
  destruct (label_key label) as [k |]; [| discriminate Hlabel].
  apply String.eqb_eq in Hlabel. subst k. reflexivity.
Qed.

Lemma ready_has_columns (df : DataFrame) :
  ready df -> Forall has_columns (iterrows df).
Proof.
  intros [Hnames Hrows]. unfold iterrows.
  apply Forall_map. revert Hrows. apply Forall_impl. intros row Hlen.
  destruct (to_series_lookup_Some col_state (columns df) row) as (st & Hst);
    [apply ready_In, Hnames; simpl; tauto | exact Hlen |].
  destruct (to_series_lookup_Some col_targeted (columns df) row) as (tg & Htg);
    [apply ready_In, Hnames; simpl; tauto | exact Hlen |].
  destruct (to_series_lookup_Some col_start (columns df) row) as (sd & Hsd);
    [apply ready_In, Hnames; simpl; tauto | exact Hlen |].
  destruct (to_series_lookup_Some col_end (columns df) row) as (ed & Hed);
    [apply ready_In, Hnames; simpl; tauto | exact Hlen |].
  exists st, tg, sd, ed. repeat split; assumption.
Qed.

(** A run that raises does so on one of its rows. *)
Lemma rows_loop_Raise_inv {pd : Pandas} (now : Timestamp) (rows : list Series)
  (x : exn) :
  rows_loop now rows = Raise x ->
  exists row, In row rows /\ process_row now row = Raise x.
Proof.
  induction rows as [| row rest IH]; simpl; [discriminate |].
  intros H. apply bind_Raise_inv in H as [H | (r & Hr & H)].
  - exists row. split; [left; reflexivity | exact H].
  - apply bind_Raise_inv in H as [H | (tl & _ & H)]; [| discriminate H].
    destruct (IH H) as (row' & Hin & Hrow').
    exists row'. split; [right; exact Hin | exact Hrow'].
Qed.

Lemma loader_no_leading_F (path : pystr) (excel : attempt DataFrame) :
  Forall no_leading_F (fst (read_excel_sheet1 path excel)).
Proof.
  unfold read_excel_sheet1.
  destruct excel as [df | e]; [destruct (promote_header df) as [df' | e] |];
    try destruct e; cbn [fst]; repeat constructor; simpl; discriminate.
Qed.

Lemma dumps_head (objs : list (list (string * json))) :
  exists rest, dumps objs = 91%N :: rest.
Proof. destruct objs; eexists; reflexivity. Qed.

Lemma preview_no_leading_F (w : World) (text : pystr) :
  Forall no_leading_F (preview_lines w text).
Proof.
  unfold preview_lines. constructor; [simpl; discriminate |].
  destruct (loads w text) as [data_list | e]; repeat constructor.
  match goal with
  | |- no_leading_F (Line (dumps ?p)) => destruct (dumps_head p) as (r & ->)
  end.
  simpl. discriminate.
Qed.

Lemma generate_not_None {pd : Pandas} (now : Timestamp) (rows : list Series) :
  generate_sheet2_data now (Some rows) <> Ok None.
Proof.
  simpl. destruct (rows_loop now rows); simpl; discriminate.
Qed.

Lemma main_no_leading_F {pd : Pandas} (w : World) :
  Forall no_leading_F (log (main w)).
Proof.
  unfold main.
  destruct (path_exists w); cbn [negb];
    [| repeat constructor; simpl; discriminate].
  pose proof (loader_no_leading_F excel_file (excel w)) as Hload.
  destruct (read_excel_sheet1 excel_file (excel w)) as [messages loaded].
  cbn [fst] in Hload.
  destruct loaded as [df |]; cbn [log].
  - destruct (generate_sheet2_data (clock w) (Some (iterrows df)))
      as [[data |] | x] eqn:Hgen; cbn [log].
    + cbn [convert_to_json_text convert_to_json option_map].
      destruct (disk w); cbn [log];
        repeat (apply Forall_app; split); try exact Hload;
        try apply preview_no_leading_F;
        repeat constructor; simpl; discriminate.
    + exfalso. exact (generate_not_None _ _ Hgen).
    + repeat (apply Forall_app; split); try exact Hload;
        repeat constructor; simpl; discriminate.
  - apply Forall_app. split; [| exact Hload].
    repeat constructor; simpl; discriminate.
Qed.

(** X11.  The two messages "Failed to generate Sheet2 data." and "Failed
    to convert to JSON." are never printed: the generator and the converter
    return nothing only for a missing frame, and a missing frame ends
    [main] before either is called. *)
Theorem failure_messages_never_printed {pd : Pandas} (w : World) :
  ~ In (Line (u "Failed to generate Sheet2 data.")) (log (main w))
  /\ ~ In (Line (u "Failed to convert to JSON.")) (log (main w)).
Proof.
  pose proof (main_no_leading_F w) as H. rewrite Forall_forall in H.
  split; intros Hin; apply H in Hin; simpl in Hin; apply Hin; reflexivity.
Qed.

(** X12.  Nothing is saved unless every stage went through: when [main]
    leaves a saved text, the input file existed, the loader returned a
    frame without a message, the generator returned, no exception escaped,
    the disk raised nothing, and the text is the JSON text of the
    generated records. *)
Theorem saved_only_on_success {pd : Pandas} (w : World) (text : pystr) :
  saved (main w) = Some text ->
  path_exists w = true
  /\ disk w = None
  /\ uncaught (main w) = None
  /\ exists (df : DataFrame) (data : list Series),
       read_excel_sheet1 excel_file (excel w) = ([], Some df)
       /\ generate_sheet2_data (clock w) (Some (iterrows df)) = Ok (Some data)
       /\ convert_to_json_text (Some data) = Some text.
Proof.
  unfold main.
  destruct (path_exists w); cbn [negb]; [| discriminate].
  pose proof (loader_quiet excel_file (excel w)) as Hquiet.
  destruct (read_excel_sheet1 excel_file (excel w)) as [messages loaded].
  cbn [fst snd] in Hquiet.
  destruct loaded as [df |]; [| discriminate].
  rewrite (Hquiet ltac:(discriminate)).
  destruct (generate_sheet2_data (clock w) (Some (iterrows df)))
    as [[data |] | x] eqn:Hgen; cbn [saved]; try discriminate.
  cbn [convert_to_json_text convert_to_json option_map].
  destruct (disk w); cbn [saved uncaught]; [discriminate |].
  intros H. injection H as <-.
  repeat split. exists df, data.
  split; [reflexivity |]. split; [exact Hgen | reflexivity].
Qed.

Lemma saved_only_on_success_witness :
  exists text : pystr,
    saved (@main Reference.pandas (scenario_world (Done raw_sheet) None (Done [])))
    = Some text
    /\ path_exists (scenario_world (Done raw_sheet) None (Done [])) = true
    /\ disk (scenario_world (Done raw_sheet) None (Done [])) = None
    /\ uncaught (@main Reference.pandas
                   (scenario_world (Done raw_sheet) None (Done []))) = None
    /\ exists (df : DataFrame) (data : list Series),
         read_excel_sheet1 excel_file
           (excel (scenario_world (Done raw_sheet) None (Done [])))
         = ([], Some df)
         /\ @generate_sheet2_data Reference.pandas
              (clock (scenario_world (Done raw_sheet) None (Done [])))
              (Some (iterrows df)) = Ok (Some data)
         /\ convert_to_json_text (Some data) = Some text.
Proof.
  eexists. split; [vm_compute; reflexivity |].
  apply (@saved_only_on_success Reference.pandas
           (scenario_world (Done raw_sheet) None (Done []))).
  vm_compute. reflexivity.
Defined.

(** X13.  A sheet without a column named State, with at least one row, ends
    [main] with an uncaught [KeyError('State')]: three lines are printed,
    nothing is saved, and no message reports the failure. *)
Theorem missing_state_column_escapes {pd : Pandas} (w : World)
  (df : DataFrame) :
  path_exists w = true ->
  read_excel_sheet1 excel_file (excel w) = ([], Some df) ->
  Forall (fun label => label_key label <> Some col_state) (columns df) ->
  cells df <> [] ->
  uncaught (main w) = Some (KeyError col_state)
  /\ saved (main w) = None
  /\ log (main w)
     = [ Line (u "Reading Sheet1 from " ++ excel_file ++ u "...");
         Line (u "Sheet1 loaded successfully with "
               ++ nat_text (List.length (cells df)) ++ u " rows and "
               ++ nat_text (List.length (columns df)) ++ u " columns.");
         Line (u "Generating Sheet2 data with calculations...") ].
Proof.
  intros Hpath Hread Hlabels Hrows.
  assert (Hgen : generate_sheet2_data (clock w) (Some (iterrows df))
                 = Raise (KeyError col_state)).
  { unfold iterrows. destruct (cells df) as [| row rest]; [contradiction |].
    simpl. unfold process_row, project, getitem.
    rewrite (to_series_lookup_None col_state _ row Hlabels). reflexivity. }
  unfold main. rewrite Hpath. cbn [negb]. rewrite Hread, Hgen.
  repeat split.
Qed.

Lemma missing_state_column_escapes_witness :
  uncaught (@main Reference.pandas (scenario_world (Done sheet_without_state) None (Done [])))
  = Some (KeyError col_state)
  /\ saved (@main Reference.pandas
              (scenario_world (Done sheet_without_state) None (Done []))) = None
  /\ log (@main Reference.pandas
            (scenario_world (Done sheet_without_state) None (Done [])))
     = [ Line (u "Reading Sheet1 from " ++ excel_file ++ u "...");
         Line (u "Sheet1 loaded successfully with "
               ++ nat_text (List.length (cells sheet_without_state))
               ++ u " rows and "
               ++ nat_text (List.length (columns sheet_without_state))
               ++ u " columns.");
         Line (u "Generating Sheet2 data with calculations...") ].
Proof.
  apply (@missing_state_column_escapes Reference.pandas
           (scenario_world (Done sheet_without_state) None (Done []))
           sheet_without_state).
  - reflexivity.
  - vm_compute. reflexivity.
  - repeat constructor; vm_compute; discriminate.
  - discriminate.
Defined.

Lemma last_two {A : Type} (l : list A) (a b d : A) :
  last (l ++ [a; b]) d = b.
Proof.
  induction l as [| x l IH]; [reflexivity |].
  simpl. rewrite IH. destruct (l ++ [a; b]) eqn:E; [| reflexivity].
  destruct l; discriminate E.
Qed.

Lemma preview_is_firstn {A : Type} (l : list A) :
  (if (3 <? List.length l)%nat then firstn 3 l else l) = firstn 3 l.
Proof.
  destruct (3 <? List.length l)%nat eqn:E; [reflexivity |].
  apply Nat.ltb_ge in E. symmetry. apply firstn_all2. exact E.
Qed.

(** X14.  On a sheet that names the four columns once each, [main] either
    runs to its end or is ended by a date subtraction.  When the generator
    returns, no exception escapes, fourteen calls of [print] are made, the
    count of generated rows reported is at most the count of loaded rows,
    and the text is saved unless the disk raises; a disk error does not
    stop the preview: the last line printed is the JSON text of the first
    three records [json.loads] returns, or the preview error when it
    raises.  Otherwise the exception is the [TypeError] or the
    [OutOfBoundsDatetime] of a date subtraction: it escapes [main] after
    three lines, and nothing is saved. *)
Theorem ready_sheet_completes {pd : Pandas} (w : World) (df : DataFrame) :
  path_exists w = true ->
  read_excel_sheet1 excel_file (excel w) = ([], Some df) ->
  ready df ->
  (exists (data : list Series) (text : pystr),
     generate_sheet2_data (clock w) (Some (iterrows df)) = Ok (Some data)
     /\ (List.length data <= List.length (cells df))%nat
     /\ convert_to_json_text (Some data) = Some text
     /\ uncaught (main w) = None
     /\ saved (main w) = match disk w with
                         | None => Some text
                         | Some _ => None
                         end
     /\ In (Line (u "Generated " ++ nat_text (List.length data)
                  ++ u " rows for Sheet2.")) (log (main w))
     /\ List.length (log (main w)) = 14%nat
     /\ (forall data_list, loads w text = Done data_list ->
           last (log (main w)) (Line []) = Line (dumps (firstn 3 data_list)))
     /\ (forall e, loads w text = Failed e ->
           last (log (main w)) (Line [])
           = LineWithError (u "Error displaying preview: ") e))
  \/ (exists x : exn,
        (x = TypeError \/ x = OutOfBoundsDatetime)
        /\ generate_sheet2_data (clock w) (Some (iterrows df)) = Raise x
        /\ uncaught (main w) = Some x
        /\ saved (main w) = None
        /\ log (main w)
           = [ Line (u "Reading Sheet1 from " ++ excel_file ++ u "...");
               Line (u "Sheet1 loaded successfully with "
                     ++ nat_text (List.length (cells df)) ++ u " rows and "
                     ++ nat_text (List.length (columns df)) ++ u " columns.");
               Line (u "Generating Sheet2 data with calculations...") ]).
Proof.
  intros Hpath Hread Hready.
  pose proof (ready_has_columns df Hready) as Hcols.
  destruct (rows_loop (clock w) (iterrows df)) as [data | x] eqn:Hloop.
  - left.
    pose proof (rows_loop_length _ _ _ Hloop) as Hlen.
    unfold iterrows in Hlen. rewrite length_map in Hlen.
    exists data, (dumps (List.map (List.map (fun kv => (fst kv, convert_types (snd kv)))) data)).
    assert (Hgen : generate_sheet2_data (clock w) (Some (iterrows df))
                   = Ok (Some data))
      by (simpl; rewrite Hloop; reflexivity).
    split; [exact Hgen |]. split; [exact Hlen |]. split; [reflexivity |].
    unfold main. rewrite Hpath. cbn [negb]. rewrite Hread, Hgen.
    cbn [convert_to_json_text convert_to_json option_map].
    destruct (disk w) as [e |]; cbn [log saved uncaught].
    + split; [reflexivity |]. split; [reflexivity |].
      split; [simpl; tauto |].
      split; [unfold preview_lines;
              destruct (loads w _); reflexivity |].
      split.
      * intros data_list Hl. unfold preview_lines. rewrite Hl.
        rewrite preview_is_firstn.
        rewrite !app_assoc. apply last_two.
      * intros e' Hl. unfold preview_lines. rewrite Hl.
        rewrite !app_assoc. apply last_two.
    + split; [reflexivity |]. split; [reflexivity |].
      split; [simpl; tauto |].
      split; [unfold preview_lines;
              destruct (loads w _); reflexivity |].
      split.
      * intros data_list Hl. unfold preview_lines. rewrite Hl.
        rewrite preview_is_firstn.
        rewrite !app_assoc. apply last_two.
      * intros e' Hl. unfold preview_lines. rewrite Hl.
        rewrite !app_assoc. apply last_two.
  - right. exists x.
    assert (Hgen : generate_sheet2_data (clock w) (Some (iterrows df)) = Raise x)
      by (simpl; rewrite Hloop; reflexivity).
    split.
    { destruct (rows_loop_Raise_inv _ _ _ Hloop) as (row & Hin & Hrow).
      rewrite Forall_forall in Hcols.
      exact (process_row_Raise_inv _ _ _ (Hcols row Hin) Hrow). }
    split; [exact Hgen |].
    unfold main. rewrite Hpath. cbn [negb]. rewrite Hread, Hgen.
    repeat split.
Qed.

Lemma sheet_ready : ready sheet.
Proof.
  split.
  - intros name Hname. cbn [In] in Hname.
    destruct Hname as [<- | [<- | [<- | [<- | []]]]]; vm_compute; reflexivity.
  - repeat constructor.
Qed.

Lemma ready_sheet_completes_witness :
  (path_exists (scenario_world (Done raw_sheet)
                  (Some (LibraryError (u "disk full"))) (Done [])) = true
   /\ read_excel_sheet1 excel_file
        (excel (scenario_world (Done raw_sheet)
                  (Some (LibraryError (u "disk full"))) (Done [])))
      = ([], Some sheet)
   /\ ready sheet)
  /\ (exists (data : list Series) (text : pystr),
        @generate_sheet2_data Reference.pandas now_2026_01_13
          (Some (iterrows sheet)) = Ok (Some data)
        /\ List.length data = 2%nat
        /\ convert_to_json_text (Some data) = Some text
        /\ uncaught (@main Reference.pandas
                       (scenario_world (Done raw_sheet)
                          (Some (LibraryError (u "disk full"))) (Done [])))
           = None
        /\ saved (@main Reference.pandas
                    (scenario_world (Done raw_sheet)
                       (Some (LibraryError (u "disk full"))) (Done [])))
           = None
        /\ List.length
             (log (@main Reference.pandas
                     (scenario_world (Done raw_sheet)
                        (Some (LibraryError (u "disk full"))) (Done []))))
           = 14%nat
        /\ last (log (@main Reference.pandas
                        (scenario_world (Done raw_sheet)
                           (Some (LibraryError (u "disk full"))) (Done []))))
                (Line [])
           = Line (u "[]")).
Proof.
  assert (H1 : path_exists (scenario_world (Done raw_sheet)
                  (Some (LibraryError (u "disk full"))) (Done [])) = true)
    by reflexivity.
  assert (H2 : read_excel_sheet1 excel_file
                 (excel (scenario_world (Done raw_sheet)
                           (Some (LibraryError (u "disk full"))) (Done [])))
               = ([], Some sheet))
    by (vm_compute; reflexivity).
  split; [split; [exact H1 | split; [exact H2 | exact sheet_ready]] |].
  destruct (@ready_sheet_completes Reference.pandas
              (scenario_world (Done raw_sheet)
                 (Some (LibraryError (u "disk full"))) (Done []))
              sheet H1 H2 sheet_ready)
    as [(data & text & Hgen & Hlen & Htext & Hunc & Hsaved & _ & Hlog & Hlast & _)
       | (x & _ & Hgen & _)].
  - exists data, text.
    split; [exact Hgen |].
    split; [change (clock _) with now_2026_01_13 in Hgen;
            vm_compute in Hgen; injection Hgen as <-; reflexivity |].
    split; [exact Htext |]. split; [exact Hunc |].
    split; [exact Hsaved |]. split; [exact Hlog |].
    exact (Hlast [] eq_refl).
  - exfalso. change (clock _) with now_2026_01_13 in Hgen.
    vm_compute in Hgen. discriminate Hgen.
Defined.

Lemma dumps_empty_iff (objs : list (list (string * json))) :
  dumps objs = u "[]" <-> objs = [].
Proof.
  split; [| intros ->; reflexivity].
  destruct objs as [| obj rest]; [reflexivity |].
  unfold dumps.
  change (u "[") with [91%N]. change (u "[]") with [91%N; 93%N].
  cbn [app]. intros H. injection H as H. discriminate H.
Qed.

(** X15.  The JSON text is "[]" exactly when no record was generated, and
    no record is generated from a table - the empty one included - all of
    whose rows have a missing or blank state. *)
Theorem all_skipped_gives_empty_array {pd : Pandas} (now : Timestamp)
  (rows : list Series) :
  Forall (fun row => exists st, lookup col_state row = Some st
                                /\ (isna st = true \/ whitespace_only (str st)))
         rows ->
  generate_sheet2_data now (Some rows) = Ok (Some [])
  /\ convert_to_json_text (Some []) = Some (u "[]")
  /\ forall data : list Series,
       convert_to_json_text (Some data) = Some (u "[]") <-> data = [].
Proof.
  intros Hrows. split; [| split].
  - simpl. induction Hrows as [| row rest (st & Hst & Hskip) _ IH];
      [reflexivity |].
    apply skip_state_iff in Hskip. simpl.
    unfold process_row. rewrite (project_skip _ _ Hst Hskip). cbn [bind].
    destruct (rows_loop now rest) as [tl | x]; [| discriminate IH].
    simpl in IH. injection IH as ->. reflexivity.
  - reflexivity.
  - intros data. cbn [convert_to_json_text convert_to_json option_map].
    split.
    + intros H. injection H as H. apply dumps_empty_iff in H.
      destruct data; [reflexivity | discriminate H].
    + intros ->. reflexivity.
Qed.

Lemma all_skipped_gives_empty_array_witness :
  Forall (fun row => exists st, lookup col_state row = Some st
                                /\ (isna st = true \/ whitespace_only (str st)))
         [blank_state; state_only nan]
  /\ (@generate_sheet2_data Reference.pandas now_2026_01_13
        (Some [blank_state; state_only nan]) = Ok (Some [])
      /\ convert_to_json_text (Some []) = Some (u "[]")
      /\ forall data : list Series,
           convert_to_json_text (Some data) = Some (u "[]") <-> data = []).
Proof.
  assert (H : Forall (fun row => exists st, lookup col_state row = Some st
                        /\ (isna st = true \/ whitespace_only (str st)))
                [blank_state; state_only nan]).
  { constructor; [| constructor; [| constructor]].
    - eexists. split; [reflexivity |]. right. reflexivity.
    - eexists. split; [reflexivity |]. left. reflexivity. }
  split; [exact H |].
  exact (@all_skipped_gives_empty_array Reference.pandas now_2026_01_13
           [blank_state; state_only nan] H).
Defined.
